(** * The CTAP-HID transport engine of virtual_fido (ctap_hid.go)

    A shallow embedding of [src/virtual_fido/ctap_hid.go]: the packet codec
    ([createResponsePackets]), the per-channel framing state machine
    ([CTAPHIDChannel.handleMessage]), the command dispatcher
    ([handleBroadcastMessage], [handleDataMessage]), the channel manager
    ([CTAPHIDServer.handleMessage]) and the response queue with its kill
    switches ([getResponse], [removeWaitingRequest], [sendResponse]).

    Conventions of the embedding:
    - a Go [uint8] is a [Byte.byte]; wider integers are [Z] with the
      wrap-around of their width written out;
    - a Go [[]byte] that the code reslices is a [slice]: the bytes below its
      length and the bytes of the backing array between length and capacity;
      the capacity that [append] gives to a slice it has to grow is the
      parameter [growslice] of the functions that append;
    - a Go [panic] is the [Panic] outcome of the [outcome] monad;
    - the channel table is a [gmap] from channel ids to channel values;
    - the [fmt.Printf] traces and the description tables they print from
      are left out. *)

From Stdlib Require Import ZArith Lia List.
From Stdlib Require Import Strings.Byte.
From stdpp Require Import base option list gmap strings.

Local Open Scope Z_scope.

(** ** Bytes and fixed-width integers *)

Abbreviation byte := Byte.byte.

Definition Z_of_byte (b : byte) : Z := Z.of_N (Byte.to_N b).

(** The conversion [byte(v)] / [uint8(v)] of Go: the low eight bits. *)
Definition byte_of_Z (v : Z) : byte :=
  default x00 (Byte.of_N (Z.to_N (v mod 256))).

(** [uint16(v)] and the arithmetic of [uint32]. *)
Definition uint16 (v : Z) : Z := v mod 2 ^ 16.
Definition uint32 (v : Z) : Z := v mod 2 ^ 32.

(** ** Outcomes: a returned value or a Go panic *)

Inductive outcome (A : Type) : Type :=
  | Ok (a : A)
  | Panic (msg : string).
Arguments Ok {A} a.
Arguments Panic {A} msg.

Global Instance outcome_ret : MRet outcome := fun A a => Ok a.
Global Instance outcome_bind : MBind outcome := fun A B f m =>
  match m with
  | Ok a => f a
  | Panic msg => Panic msg
  end.

(** ** Go slices

    [elems] are the bytes [s[0..len)], [spare] the bytes of the backing array
    from [len] up to [cap]. A slice expression [s[low:]] is checked against
    the length, [s[:high]] against the capacity (Go specification, "Slice
    expressions": for slices the upper index bound is the capacity). *)

Record slice : Type := Slice { elems : list byte; spare : list byte }.

Definition len (s : slice) : nat := length (elems s).
Definition cap (s : slice) : nat := length (elems s) + length (spare s).

(** A slice that fills its backing array, as [make([]byte, n)] returns. *)
Definition full (l : list byte) : slice := Slice l [].

(** [s[low:]] *)
Definition slice_from (s : slice) (low : nat) : outcome slice :=
  if (low <=? len s)%nat
  then Ok (Slice (drop low (elems s)) (spare s))
  else Panic "slice bounds out of range".

(** [s[:high]] *)
Definition slice_to (s : slice) (high : nat) : outcome slice :=
  if (high <=? cap s)%nat
  then Ok (Slice (take high (elems s ++ spare s)) (drop high (elems s ++ spare s)))
  else Panic "slice bounds out of range".

(** [append(s, xs...)]: in place while the capacity suffices, otherwise into
    a new, zeroed backing array. How large the runtime makes the new array
    is not fixed by the language: [growslice] stands for that choice, the
    new capacity as a function of the old capacity and the length needed.
    The new array holds at least the result, whatever [growslice] says. *)
Definition append (growslice : nat -> nat -> nat) (s : slice) (xs : list byte)
  : slice :=
  if (length xs <=? length (spare s))%nat
  then Slice (elems s ++ xs) (drop (length xs) (spare s))
  else Slice (elems s ++ xs)
         (replicate
            (growslice (cap s) (len s + length xs) - (len s + length xs))%nat
            x00).

(** ** Constants of ctap_hid.go *)

Definition CTAPHID_BROADCAST_CHANNEL : Z := 0xFFFFFFFF.

Definition CTAPHID_COMMAND_MSG : byte := x83.
Definition CTAPHID_COMMAND_CBOR : byte := x90.
Definition CTAPHID_COMMAND_INIT : byte := x86.
Definition CTAPHID_COMMAND_PING : byte := x81.
Definition CTAPHID_COMMAND_CANCEL : byte := x91.
Definition CTAPHID_COMMAND_ERROR : byte := xbf.
Definition CTAPHID_COMMAND_KEEPALIVE : byte := xbb.
Definition CTAPHID_COMMAND_WINK : byte := x88.
Definition CTAPHID_COMMAND_LOCK : byte := x84.

Definition CTAPHID_ERR_INVALID_COMMAND : byte := x01.
Definition CTAPHID_ERR_INVALID_PARAMETER : byte := x02.
Definition CTAPHID_ERR_INVALID_LENGTH : byte := x03.
Definition CTAPHID_ERR_INVALID_SEQUENCE : byte := x04.
Definition CTAPHID_ERR_MESSAGE_TIMEOUT : byte := x05.
Definition CTAPHID_ERR_CHANNEL_BUSY : byte := x06.
Definition CTAPHID_ERR_LOCK_REQUIRED : byte := x0a.
Definition CTAPHID_ERR_INVALID_CHANNEL : byte := x0b.
Definition CTAPHID_ERR_OTHER : byte := x7f.

Definition CTAPHIDSERVER_MAX_PACKET_SIZE : nat := 64.

Record CTAPHIDMessageHeader : Type := {
  ChannelID : Z;
  Command : byte;
  PayloadLength : Z
}.

Record CTAPHIDInitReponse : Type := {
  Nonce : list byte;
  NewChannelID : Z;
  ProtocolVersion : byte;
  DeviceVersionMajor : byte;
  DeviceVersionMinor : byte;
  DeviceVersionBuild : byte;
  CapabilitiesFlags : byte
}.

(** ** Byte-order helpers *)

(** Modelled from the spec: the helpers [toLE], [toBE], [readLE], [readBE],
    [sizeOf], [flatten] and [pad] that ctap_hid.go calls are declared in a
    file that is not among the sources. They are written here from the
    packet layout of the specification: a channel id is 4 bytes
    little-endian, a command 1 byte, a payload length 2 bytes big-endian, a
    packet is zero-padded to its size, and a structure is written field by
    field in declaration order. [toLE_ChannelID] is [toLE] at
    [CTAPHIDChannelID]. *)
Definition toLE_ChannelID (v : Z) : list byte :=
  [byte_of_Z v; byte_of_Z (v / 2 ^ 8); byte_of_Z (v / 2 ^ 16);
   byte_of_Z (v / 2 ^ 24)].

(** Modelled from the spec: [toLE] at [CTAPHIDCommand], one byte. *)
Definition toLE_Command (c : byte) : list byte := [c].

(** Modelled from the spec: [toBE] at [uint16], high byte first. *)
Definition toBE_uint16 (v : Z) : list byte :=
  [byte_of_Z (v / 2 ^ 8); byte_of_Z v].

(** Modelled from the spec: [toLE] at [CTAPHIDInitReponse], the fields in
    declaration order, the 8-byte nonce as it is and the channel id in the
    byte order of [toLE]. *)
Definition toLE_InitReponse (r : CTAPHIDInitReponse) : list byte :=
  Nonce r ++ toLE_ChannelID (NewChannelID r) ++
  [ProtocolVersion r; DeviceVersionMajor r; DeviceVersionMinor r;
   DeviceVersionBuild r; CapabilitiesFlags r].

(** Modelled from the spec: [flatten] concatenates its byte strings. *)
Definition flatten (parts : list (list byte)) : list byte := concat parts.

(** Modelled from the spec: [pad] fills a packet with zero bytes up to
    [size]. *)
Definition pad (src : list byte) (size : nat) : list byte :=
  src ++ replicate (size - length src) x00.

(** Modelled from the spec: [sizeOf] at [CTAPHIDChannelID], the 4 bytes of
    a channel id. *)
Definition sizeOf_ChannelID : nat := 4.

(** Modelled from the spec: [sizeOf] at [CTAPHIDCommand], the command
    byte. *)
Definition sizeOf_Command : nat := 1.

(** Modelled from the spec: [sizeOf] at [uint16], the 2 bytes of a payload
    length. *)
Definition sizeOf_uint16 : nat := 2.

(** Modelled from the spec: [readLE] at [CTAPHIDChannelID] takes four bytes
    from the front of a [bytes.Buffer] (here the list of unread bytes) and
    returns the value with the rest of the buffer. The specification only
    describes reports of 64 bytes; a buffer with too few bytes has no value
    to give and the reader fails. *)
Definition readLE_ChannelID (buffer : list byte) : outcome (Z * list byte) :=
  match buffer with
  | b0 :: b1 :: b2 :: b3 :: rest =>
      Ok (Z_of_byte b0 + 2 ^ 8 * Z_of_byte b1 + 2 ^ 16 * Z_of_byte b2
            + 2 ^ 24 * Z_of_byte b3,
          rest)
  | _ => Panic "Could not read LE"
  end.

(** Modelled from the spec: [readLE] at [CTAPHIDCommand], one byte. *)
Definition readLE_Command (buffer : list byte) : outcome (byte * list byte) :=
  match buffer with
  | b :: rest => Ok (b, rest)
  | _ => Panic "Could not read LE"
  end.

(** Modelled from the spec: [readBE] at [uint16], high byte first. *)
Definition readBE_uint16 (buffer : list byte) : outcome (Z * list byte) :=
  match buffer with
  | hi :: lo :: rest => Ok (2 ^ 8 * Z_of_byte hi + Z_of_byte lo, rest)
  | _ => Panic "Could not read BE"
  end.

(** ** Packet codec *)

Definition newCTAPHIDMessageHeader (channelID : Z) (command : byte) (length : Z)
  : list byte :=
  flatten [toLE_ChannelID channelID; toLE_Command command; toBE_uint16 length].

(** The loop of [createResponsePackets]. [sequence] is the Go [int] counter
    (it starts at -1), [payload] the part of the payload not yet emitted.
    The loop runs while [len(payload) > 0]; every turn removes at least one
    byte, so [fuel] turns with [fuel = len(payload)] reach its end (see
    [createResponsePackets_loop_fuel]). *)
Fixpoint createResponsePackets_loop (fuel : nat) (channelId : Z) (command : byte)
    (sequence : Z) (payload : list byte) : list (list byte) :=
  match fuel with
  | O => []
  | S fuel' =>
      if (0 <? length payload)%nat then
        let packet :=
          if sequence <? 0
          then newCTAPHIDMessageHeader channelId command
                 (uint16 (Z.of_nat (length payload)))
          else toLE_ChannelID channelId ++ [byte_of_Z sequence] in
        let bytesLeft := (CTAPHIDSERVER_MAX_PACKET_SIZE - length packet)%nat in
        let bytesLeft :=
          if (length payload <? bytesLeft)%nat then length payload else bytesLeft in
        pad (packet ++ take bytesLeft payload) CTAPHIDSERVER_MAX_PACKET_SIZE
          :: createResponsePackets_loop fuel' channelId command (sequence + 1)
               (drop bytesLeft payload)
      else []
  end.

Definition createResponsePackets (channelId : Z) (command : byte)
    (payload : list byte) : list (list byte) :=
  createResponsePackets_loop (length payload) channelId command (-1) payload.

Definition ctapHidError (channelId : Z) (err : byte) : list (list byte) :=
  createResponsePackets channelId CTAPHID_COMMAND_ERROR [err].

(** ** Channels *)

Record CTAPHIDChannel : Type := {
  channelId : Z;
  inProgressHeader : option CTAPHIDMessageHeader;
  inProgressPayload : option slice
}.

Definition NewCTAPHIDChannel (channelId : Z) : CTAPHIDChannel :=
  {| channelId := channelId; inProgressHeader := None; inProgressPayload := None |}.

(** [*channel.inProgressHeader] *)
Definition deref_header (h : option CTAPHIDMessageHeader)
  : outcome CTAPHIDMessageHeader :=
  match h with
  | Some header => Ok header
  | None => Panic "invalid memory address or nil pointer dereference"
  end.

Section Framing.
(** The body of [CTAPHIDChannel.handleMessage]. Its two calls of
    [channel.handleFinalizedMessage] go through [finalize], so that the
    header and payload that cross the dispatcher boundary can be observed;
    [CTAPHIDChannel_handleMessage] below puts [handleFinalizedMessage]
    there. The method returns the channel as it has mutated it, the server
    as the dispatcher has left it, and the response ([None] is Go's
    [nil]). *)
Context {Srv Resp : Type}.
Variable finalize :
  CTAPHIDChannel -> Srv -> CTAPHIDMessageHeader -> slice -> outcome (Srv * Resp).
Variable growslice : nat -> nat -> nat.

Definition handleMessage_with (channel : CTAPHIDChannel) (server : Srv)
    (message : slice) : outcome (CTAPHIDChannel * Srv * option Resp) :=
  match inProgressPayload channel with
  | Some inProgress =>
      header ← deref_header (inProgressHeader channel);
      let payloadLeft := PayloadLength header - Z.of_nat (len inProgress) in
      let payloadIndex := (sizeOf_ChannelID + 1)%nat in
      payload ← slice_from message payloadIndex;
      if Z.of_nat (len payload) <? payloadLeft then
        Ok ({| channelId := channelId channel;
               inProgressHeader := inProgressHeader channel;
               inProgressPayload := Some (append growslice inProgress (elems payload)) |},
            server, None)
      else
        let assembled := append growslice inProgress (elems payload) in
        '(server', response) ← finalize channel server header assembled;
        Ok ({| channelId := channelId channel;
               inProgressHeader := None;
               inProgressPayload := None |},
            server', Some response)
  | None =>
      let buffer := elems message in
      '(_, buffer) ← readLE_ChannelID buffer;
      '(command, buffer) ← readLE_Command buffer;
      '(payloadLength, buffer) ← readBE_uint16 buffer;
      let header := {| ChannelID := channelId channel;
                       Command := command;
                       PayloadLength := payloadLength |} in
      let payloadIndex := (sizeOf_ChannelID + sizeOf_Command + sizeOf_uint16)%nat in
      payload ← slice_from message payloadIndex;
      if uint16 (Z.of_nat (len payload)) <? payloadLength then
        Ok ({| channelId := channelId channel;
               inProgressHeader := Some header;
               inProgressPayload := Some payload |},
            server, None)
      else
        payload' ← slice_to payload (Z.to_nat payloadLength);
        '(server', response) ← finalize channel server header payload';
        Ok (channel, server', Some response)
  end.
End Framing.

(** The transport hands its reports to a channel one after the other; each
    report is a slice that fills its 64-byte array. [feed] runs
    [handleMessage_with] over a sequence of packets and collects the
    responses that are not [nil]. *)
Section Feed.
Context {Srv Resp : Type}.
Variable finalize :
  CTAPHIDChannel -> Srv -> CTAPHIDMessageHeader -> slice -> outcome (Srv * Resp).
Variable growslice : nat -> nat -> nat.

Fixpoint feed (channel : CTAPHIDChannel) (server : Srv)
    (packets : list (list byte)) : outcome (CTAPHIDChannel * Srv * list Resp) :=
  match packets with
  | [] => Ok (channel, server, [])
  | packet :: packets' =>
      '(channel', server', response) ←
        handleMessage_with finalize growslice channel server (full packet);
      '(channel'', server'', responses') ← feed channel' server' packets';
      Ok (channel'', server'', option_list response ++ responses')
  end.
End Feed.

(** A dispatcher that only records what it is handed: the server state is
    the list of finalized messages, oldest first. *)
Definition observe (channel : CTAPHIDChannel)
    (seen : list (CTAPHIDMessageHeader * slice))
    (header : CTAPHIDMessageHeader) (payload : slice)
  : outcome (list (CTAPHIDMessageHeader * slice) * unit) :=
  Ok (seen ++ [(header, payload)], tt).

(** What reaches the dispatcher boundary when [packets] are fed, in order,
    to [channel], and the channel afterwards. *)
Definition reassemble (growslice : nat -> nat -> nat) (channel : CTAPHIDChannel)
    (packets : list (list byte))
  : outcome (CTAPHIDChannel * list (CTAPHIDMessageHeader * slice)) :=
  '(channel', seen, _) ← feed observe growslice channel [] packets;
  Ok (channel', seen).

(** ** The server *)

Section Server.
(** The CTAP2 and U2F processors are external to ctap_hid.go: their state
    types and their handlers ([ctapServer.handleMessage],
    [u2fServer.handleU2FMessage]) are parameters. *)
Variables CTAPServer U2FServer : Type.
Variable ctapServer_handleMessage : CTAPServer -> list byte -> CTAPServer * list byte.
Variable handleU2FMessage : U2FServer -> list byte -> U2FServer * list byte.

(** The growth of slices by [append], the choice of the Go runtime. *)
Variable growslice : nat -> nat -> nat.

(** [responses] is the content of the buffered Go channel, oldest packet
    first; its capacity of 100, at which a send waits for a receiver, is
    not modelled. [waitingForResponses] is the [sync.Map]; a kill switch (a
    [chan bool]) is named by the number of its allocation. The channel
    table holds each channel under its id; a method that mutates a channel
    returns it and the caller stores it back. *)
Record CTAPHIDServer : Type := {
  ctapServer : CTAPServer;
  u2fServer : U2FServer;
  maxChannelID : Z;
  channels : gmap Z CTAPHIDChannel;
  responses : list (list byte);
  waitingForResponses : gmap Z nat
}.

Definition newCTAPHIDServer (ctapServer : CTAPServer) (u2fServer : U2FServer)
  : CTAPHIDServer :=
  {| ctapServer := ctapServer;
     u2fServer := u2fServer;
     maxChannelID := 0;
     channels := {[ CTAPHID_BROADCAST_CHANNEL :=
                      NewCTAPHIDChannel CTAPHID_BROADCAST_CHANNEL ]};
     responses := [];
     waitingForResponses := ∅ |}.

(** [copy(response.Nonce[:], nonce)] into the zeroed 8-byte array. *)
Definition copy_Nonce (nonce : list byte) : list byte :=
  take 8 (nonce ++ replicate 8 x00).

(** The [switch] of [handleBroadcastMessage]. [nonce := payload[:8]] is a
    reslice: it is in range when 8 is at most the capacity of [payload],
    and then has length 8 whatever the length of [payload] was. *)
Definition handleBroadcastMessage (channel : CTAPHIDChannel)
    (server : CTAPHIDServer) (header : CTAPHIDMessageHeader) (payload : slice)
  : outcome (CTAPHIDServer * list (list byte)) :=
  if Byte.eqb (Command header) CTAPHID_COMMAND_INIT then
    nonce ← slice_to payload 8;
    let response :=
      {| Nonce := copy_Nonce (elems nonce);
         NewChannelID := uint32 (maxChannelID server + 1);
         ProtocolVersion := x02;
         DeviceVersionMajor := x00;
         DeviceVersionMinor := x00;
         DeviceVersionBuild := x01;
         CapabilitiesFlags := x00 |} in
    let server' :=
      {| ctapServer := ctapServer server;
         u2fServer := u2fServer server;
         maxChannelID := uint32 (maxChannelID server + 1);
         channels := <[ NewChannelID response :=
                          NewCTAPHIDChannel (NewChannelID response) ]>
                       (channels server);
         responses := responses server;
         waitingForResponses := waitingForResponses server |} in
    Ok (server',
        createResponsePackets CTAPHID_BROADCAST_CHANNEL CTAPHID_COMMAND_INIT
          (toLE_InitReponse response))
  else if Byte.eqb (Command header) CTAPHID_COMMAND_PING then
    Ok (server,
        createResponsePackets CTAPHID_BROADCAST_CHANNEL CTAPHID_COMMAND_PING
          (elems payload))
  else Panic "Invalid CTAPHID Broadcast command".

Definition handleDataMessage (channel : CTAPHIDChannel)
    (server : CTAPHIDServer) (header : CTAPHIDMessageHeader) (payload : slice)
  : outcome (CTAPHIDServer * list (list byte)) :=
  if Byte.eqb (Command header) CTAPHID_COMMAND_MSG then
    let '(u2f', responsePayload) := handleU2FMessage (u2fServer server) (elems payload) in
    Ok ({| ctapServer := ctapServer server;
           u2fServer := u2f';
           maxChannelID := maxChannelID server;
           channels := channels server;
           responses := responses server;
           waitingForResponses := waitingForResponses server |},
        createResponsePackets (ChannelID header) CTAPHID_COMMAND_MSG responsePayload)
  else if Byte.eqb (Command header) CTAPHID_COMMAND_CBOR then
    let '(ctap', responsePayload) :=
      ctapServer_handleMessage (ctapServer server) (elems payload) in
    Ok ({| ctapServer := ctap';
           u2fServer := u2fServer server;
           maxChannelID := maxChannelID server;
           channels := channels server;
           responses := responses server;
           waitingForResponses := waitingForResponses server |},
        createResponsePackets (ChannelID header) CTAPHID_COMMAND_CBOR responsePayload)
  else if Byte.eqb (Command header) CTAPHID_COMMAND_PING then
    Ok (server,
        createResponsePackets (ChannelID header) CTAPHID_COMMAND_PING (elems payload))
  else Panic "Invalid CTAPHID Channel command".

Definition handleFinalizedMessage (channel : CTAPHIDChannel)
    (server : CTAPHIDServer) (header : CTAPHIDMessageHeader) (payload : slice)
  : outcome (CTAPHIDServer * list (list byte)) :=
  if channelId channel =? CTAPHID_BROADCAST_CHANNEL
  then handleBroadcastMessage channel server header payload
  else handleDataMessage channel server header payload.

Definition CTAPHIDChannel_handleMessage (channel : CTAPHIDChannel)
    (server : CTAPHIDServer) (message : slice)
  : outcome (CTAPHIDChannel * CTAPHIDServer * option (list (list byte))) :=
  handleMessage_with handleFinalizedMessage growslice channel server message.

(** [sendResponse] puts the packets on [server.responses] in order. *)
Definition sendResponse (server : CTAPHIDServer) (response : list (list byte))
  : CTAPHIDServer :=
  {| ctapServer := ctapServer server;
     u2fServer := u2fServer server;
     maxChannelID := maxChannelID server;
     channels := channels server;
     responses := responses server ++ response;
     waitingForResponses := waitingForResponses server |}.

(** The channel that [channel.handleMessage] has mutated through its
    pointer, seen again through the table. Every channel is created by
    [NewCTAPHIDChannel] under its own id and is idle whenever the dispatcher
    has returned, so the value stored here is also the one the table holds
    when an INIT has just put a new channel under the id being served. *)
Definition store_channel (server : CTAPHIDServer) (id : Z)
    (channel : CTAPHIDChannel) : CTAPHIDServer :=
  {| ctapServer := ctapServer server;
     u2fServer := u2fServer server;
     maxChannelID := maxChannelID server;
     channels := <[ id := channel ]> (channels server);
     responses := responses server;
     waitingForResponses := waitingForResponses server |}.

Definition handleMessage (server : CTAPHIDServer) (message : slice)
  : outcome CTAPHIDServer :=
  '(channelId, _) ← readLE_ChannelID (elems message);
  match channels server !! channelId with
  | None =>
      let response := ctapHidError channelId CTAPHID_ERR_INVALID_CHANNEL in
      Ok (sendResponse server response)
  | Some channel =>
      '(channel', server', response) ←
        CTAPHIDChannel_handleMessage channel server message;
      let server' := store_channel server' channelId channel' in
      match response with
      | Some response => Ok (sendResponse server' response)
      | None => Ok server'
      end
  end.

(** *** The response queue and the kill switches

    [getResponse] runs in the goroutine of a caller and blocks in a
    [select]; it is modelled by its atomic steps. [killSwitch] names the
    channel that [make(chan bool)] has returned. *)

Definition set_waiting (server : CTAPHIDServer) (waiting : gmap Z nat)
  : CTAPHIDServer :=
  {| ctapServer := ctapServer server;
     u2fServer := u2fServer server;
     maxChannelID := maxChannelID server;
     channels := channels server;
     responses := responses server;
     waitingForResponses := waiting |}.

(** [server.waitingForResponses.Store(id, killSwitch)] *)
Definition getResponse_store (server : CTAPHIDServer) (id : Z) (killSwitch : nat)
  : CTAPHIDServer :=
  set_waiting server (<[ id := killSwitch ]> (waitingForResponses server)).

(** [case response := <-server.responses: return response]; the case is
    ready when the queue holds a packet. *)
Definition getResponse_response (server : CTAPHIDServer)
  : option (CTAPHIDServer * list byte) :=
  match responses server with
  | response :: rest =>
      Some ({| ctapServer := ctapServer server;
               u2fServer := u2fServer server;
               maxChannelID := maxChannelID server;
               channels := channels server;
               responses := rest;
               waitingForResponses := waitingForResponses server |},
            response)
  | [] => None
  end.

(** [case <-killSwitch: server.waitingForResponses.Delete(id); return nil] *)
Definition getResponse_killed (server : CTAPHIDServer) (id : Z) : CTAPHIDServer :=
  set_waiting server (delete id (waitingForResponses server)).

(** [removeWaitingRequest]: the [Load]. With [Some killSwitch] the caller
    goes on to send on that unbuffered channel and returns [true] once a
    receiver has taken the value; with [None] it returns [false]. *)
Definition removeWaitingRequest_load (server : CTAPHIDServer) (id : Z) : option nat :=
  waitingForResponses server !! id.

(** The [select] of [getResponse id], run on the server as it is when the
    [select] commits: exactly one case is taken. [sent killSwitch] says
    that a [removeWaitingRequest] is sending on [killSwitch]. The result
    is the returned slice ([None] is [nil]) and the server afterwards. *)
Inductive getResponse_select (sent : nat -> Prop) (id : Z) (killSwitch : nat)
    (server : CTAPHIDServer) : option (list byte) -> CTAPHIDServer -> Prop :=
  | select_response server' response :
      getResponse_response server = Some (server', response) ->
      getResponse_select sent id killSwitch server (Some response) server'
  | select_killSwitch :
      sent killSwitch ->
      getResponse_select sent id killSwitch server None
        (getResponse_killed server id).
End Server.

Arguments newCTAPHIDServer {CTAPServer U2FServer}.
Arguments handleBroadcastMessage {CTAPServer U2FServer}.
Arguments sendResponse {CTAPServer U2FServer}.
Arguments store_channel {CTAPServer U2FServer}.
Arguments set_waiting {CTAPServer U2FServer}.
Arguments getResponse_store {CTAPServer U2FServer}.
Arguments getResponse_response {CTAPServer U2FServer}.
Arguments getResponse_killed {CTAPServer U2FServer}.
Arguments removeWaitingRequest_load {CTAPServer U2FServer}.
Arguments getResponse_select {CTAPServer U2FServer}.
Arguments select_response {CTAPServer U2FServer sent id killSwitch server}.
Arguments select_killSwitch {CTAPServer U2FServer sent id killSwitch server}.
Arguments ctapServer {CTAPServer U2FServer}.
Arguments u2fServer {CTAPServer U2FServer}.
Arguments maxChannelID {CTAPServer U2FServer}.
Arguments channels {CTAPServer U2FServer}.
Arguments responses {CTAPServer U2FServer}.
Arguments waitingForResponses {CTAPServer U2FServer}.
Arguments handleDataMessage {CTAPServer U2FServer}.
Arguments handleFinalizedMessage {CTAPServer U2FServer}.
Arguments CTAPHIDChannel_handleMessage {CTAPServer U2FServer}.
Arguments handleMessage {CTAPServer U2FServer}.

(** ** Auxiliary definitions for the statements *)

(** One turn of the loop, for a payload that is not empty: [room] is what
    the packet can carry after its header, 57 bytes in the first packet and
    59 in a continuation. *)
Definition room (sequence : Z) : nat := if sequence <? 0 then 57%nat else 59%nat.

Definition packet_header (channelId : Z) (command : byte) (sequence : Z)
    (payload : list byte) : list byte :=
  if sequence <? 0
  then newCTAPHIDMessageHeader channelId command (uint16 (Z.of_nat (length payload)))
  else toLE_ChannelID channelId ++ [byte_of_Z sequence].

(** A channel that is assembling a message. *)
Definition Assembling (channelId : Z) (header : CTAPHIDMessageHeader)
    (partial : slice) : CTAPHIDChannel :=
  {| channelId := channelId;
     inProgressHeader := Some header;
     inProgressPayload := Some partial |}.

(** The server after an INIT on the broadcast channel: the next id is
    taken and a new channel stored under it. *)
Definition allocated {CTAPServer U2FServer : Type}
    (server : CTAPHIDServer CTAPServer U2FServer)
  : CTAPHIDServer CTAPServer U2FServer :=
  {| ctapServer := ctapServer server;
     u2fServer := u2fServer server;
     maxChannelID := uint32 (maxChannelID server + 1);
     channels := <[ uint32 (maxChannelID server + 1) :=
                      NewCTAPHIDChannel (uint32 (maxChannelID server + 1)) ]>
                   (channels server);
     responses := responses server;
     waitingForResponses := waitingForResponses server |}.

(** Stand-ins for the external processors in closed examples: no state, the
    payload returned as it came. *)
Definition idle_processor (state : unit) (payload : list byte) : unit * list byte :=
  (state, payload).

(** A 64-byte report. *)
Definition report (header body : list byte) : slice :=
  full (header ++ body ++ replicate (64 - length header - length body) x00).

(** The two reports of a 58-byte PING on channel 1: an initial packet that
    declares 58 bytes and carries 57, and continuation 0 with the last byte
    and 58 bytes of padding. *)
Definition ping58_initial : list byte :=
  [x01; x00; x00; x00; CTAPHID_COMMAND_PING; x00; x3a] ++ replicate 57 x41.
Definition ping58_continuation : list byte :=
  [x01; x00; x00; x00; x00; x41] ++ replicate 58 x00.

(** The response packet of a PING of "hello" on channel 2. *)
Definition hello_response : list byte :=
  [x02; x00; x00; x00; CTAPHID_COMMAND_PING; x00; x05; x68; x65; x6c; x6c; x6f]
    ++ replicate 52 x00.

(** *** The growth of slices in the gc runtime

    The closed examples run with the growth of byte slices in the gc
    runtime of Go 1.18 and later ([runtime.growslice]): the length needed
    when it exceeds twice the old capacity, otherwise twice the old
    capacity below 256 and steps of a quarter plus 192 from there on, and
    the result rounded up to an allocation size class, or to whole pages of
    8192 bytes beyond the largest class. The theorems hold for every
    growth. *)
Definition size_classes : list N :=
  [8; 16; 24; 32; 48; 64; 80; 96; 112; 128; 144; 160; 176; 192; 208; 224; 240;
   256; 288; 320; 352; 384; 416; 448; 480; 512; 576; 640; 704; 768; 896; 1024;
   1152; 1280; 1408; 1536; 1792; 2048; 2304; 2688; 3072; 3200; 3456; 4096;
   4864; 5120; 5376; 6144; 6528; 6784; 6912; 8192; 9472; 9728; 10240; 10880;
   12288; 13568; 14336; 16384; 18432; 19072; 20480; 21760; 24576; 27264;
   28672; 32768]%N.

Definition roundupsize (size : N) : N :=
  match List.find (fun class => (size <=? class)%N) size_classes with
  | Some class => class
  | None => ((size + 8191) / 8192 * 8192)%N
  end.

(** The loop of [nextslicecap] for an old capacity of 256 or more; every
    turn adds at least 256, so [newLen] turns suffice. *)
Fixpoint nextslicecap_loop (fuel : nat) (newcap newLen : N) : N :=
  match fuel with
  | O => newcap
  | S fuel' =>
      let newcap := (newcap + (newcap + 3 * 256) / 4)%N in
      if (newLen <=? newcap)%N then newcap
      else nextslicecap_loop fuel' newcap newLen
  end.

Definition nextslicecap (newLen oldCap : N) : N :=
  if (oldCap + oldCap <? newLen)%N then newLen
  else if (oldCap <? 256)%N then (oldCap + oldCap)%N
  else nextslicecap_loop (N.to_nat newLen) oldCap newLen.

Definition growslice_gc (oldCap newLen : nat) : nat :=
  N.to_nat (roundupsize (nextslicecap (N.of_nat newLen) (N.of_nat oldCap))).

(** The lengths of the payloads that reach the dispatcher when a PING of
    [n] bytes is encoded for channel 1 and fed to an idle channel 1. *)
Definition handed_lengths (growslice : nat -> nat -> nat) (n : nat) : list nat :=
  match reassemble growslice (NewCTAPHIDChannel 1)
          (createResponsePackets 1 CTAPHID_COMMAND_PING (replicate n x41)) with
  | Ok (_, seen) => map (fun message => len (snd message)) seen
  | Panic _ => []
  end.

(** The header of an INIT request, and [n] such requests in a row on the
    broadcast channel, each with a nonce of 8 zero bytes. *)
Definition INIT_request : CTAPHIDMessageHeader :=
  {| ChannelID := CTAPHID_BROADCAST_CHANNEL; Command := CTAPHID_COMMAND_INIT;
     PayloadLength := 8 |}.

Fixpoint allocate {CTAPServer U2FServer : Type} (n : nat)
    (server : CTAPHIDServer CTAPServer U2FServer)
  : outcome (CTAPHIDServer CTAPServer U2FServer) :=
  match n with
  | O => Ok server
  | S n' =>
      '(server', _) ←
        handleBroadcastMessage (NewCTAPHIDChannel CTAPHID_BROADCAST_CHANNEL)
          server INIT_request (full (replicate 8 x00));
      allocate n' server'
  end.

(** ** Further definitions *)

(** [isFollowupMessage]: bit 7 of the command byte. *)
Definition isFollowupMessage (header : CTAPHIDMessageHeader) : bool :=
  negb (Z.land (Z_of_byte (Command header)) (Z.shiftl 1 7) =? 0).

(** The three reads with which [CTAPHIDChannel.handleMessage] takes the
    header off an initial packet: channel id, command, payload length, and
    the bytes left in the buffer. *)
Definition read_header (message : list byte) : outcome (Z * byte * Z * list byte) :=
  '(channelId, buffer) ← readLE_ChannelID message;
  '(command, buffer) ← readLE_Command buffer;
  '(payloadLength, buffer) ← readBE_uint16 buffer;
  Ok (channelId, command, payloadLength, buffer).

(** The payload bytes that a packet sequence carries: what follows the 7
    header bytes of the first packet and the 5 header bytes of each later
    one. *)
Definition carried (packets : list (list byte)) : list byte :=
  match packets with
  | [] => []
  | initial :: continuations =>
      drop 7 initial ++ concat (map (drop 5) continuations)
  end.

(** A channel stored under [id] is well formed when it carries that id and
    is either idle, with no header and no buffer, or assembling, with a
    header and a buffer shorter than the declared payload length. *)
Definition channel_ok (id : Z) (channel : CTAPHIDChannel) : Prop :=
  channelId channel = id /\
  match inProgressPayload channel, inProgressHeader channel with
  | None, None => True
  | Some partial, Some header => Z.of_nat (len partial) < PayloadLength header
  | _, _ => False
  end.

(** A server is well formed when the broadcast channel is in its table and
    every channel of the table is well formed. *)
Definition server_ok {CTAPServer U2FServer : Type}
    (server : CTAPHIDServer CTAPServer U2FServer) : Prop :=
  is_Some (channels server !! CTAPHID_BROADCAST_CHANNEL) /\
  forall id channel, channels server !! id = Some channel -> channel_ok id channel.

(** Calls of [getResponse] one after the other, each with its id and the
    kill switch it has allocated. Every call stores its kill switch and
    then takes the delivery case of its [select]. The result is the packets
    returned, in the order of the calls, and the server afterwards. A call
    that finds the queue empty has stored its kill switch and blocks; the
    run ends there. *)
Fixpoint receive {CTAPServer U2FServer : Type} (callers : list (Z * nat))
    (server : CTAPHIDServer CTAPServer U2FServer)
  : list (list byte) * CTAPHIDServer CTAPServer U2FServer :=
  match callers with
  | [] => ([], server)
  | (id, killSwitch) :: callers' =>
      let server := getResponse_store server id killSwitch in
      match getResponse_response server with
      | Some (server', response) =>
          let '(received, server'') := receive callers' server' in
          (response :: received, server'')
      | None => ([], server)
      end
  end.

(** The kill switches that a run of callers has stored, each under its
    id, a later one replacing an earlier one of the same id. *)
Definition stored (waiting : gmap Z nat) (callers : list (Z * nat)) : gmap Z nat :=
  foldl (fun waiting caller => <[ caller.1 := caller.2 ]> waiting) waiting callers.

(** *** The HID bridge (main.go of the Raspberry Pi guide)

    [HIDDevice.SendResponse] pads a response shorter than 64 bytes with
    zeros and sends it to [hid.responseCh] in chunks of at most 64 bytes.
    The result is the list of chunks sent, in order. The loop counter [i]
    grows by 64 while [i < len(response)], so [len(response)] turns
    suffice. *)
Fixpoint HIDDevice_SendResponse_loop (fuel : nat) (response : list byte) (i : nat)
  : list (list byte) :=
  match fuel with
  | O => []
  | S fuel' =>
      if (i <? length response)%nat then
        let end_ := (i + 64)%nat in
        let end_ := if (length response <? end_)%nat then length response else end_ in
        let chunk := take (end_ - i) (drop i response) in
        chunk :: HIDDevice_SendResponse_loop fuel' response (i + 64)
      else []
  end.

Definition HIDDevice_SendResponse (response : list byte) : list (list byte) :=
  let response :=
    if (length response <? 64)%nat
    then response ++ replicate (64 - length response) x00
    else response in
  HIDDevice_SendResponse_loop (length response) response 0.

(** * Properties *)

(** ** Bytes *)

Lemma Z_of_byte_range (b : byte) : 0 <= Z_of_byte b < 256.
Proof.
  unfold Z_of_byte. pose proof (Byte.to_N_bounded b) as H.
  lia.
Qed.

Lemma byte_of_Z_of_byte (b : byte) : byte_of_Z (Z_of_byte b) = b.
Proof.
  unfold byte_of_Z.
  rewrite Z.mod_small by apply Z_of_byte_range.
  unfold Z_of_byte. rewrite N2Z.id, Byte.of_to_N. reflexivity.
Qed.

Lemma Z_of_byte_of_Z (v : Z) : Z_of_byte (byte_of_Z v) = v mod 256.
Proof.
  unfold byte_of_Z, Z_of_byte.
  assert (Hr : 0 <= v mod 256 < 256) by (apply Z.mod_pos_bound; lia).
  destruct (Byte.of_N (Z.to_N (v mod 256))) as [b|] eqn:E.
  - apply Byte.to_of_N in E. simpl. rewrite E. lia.
  - apply Byte.of_N_None_iff in E. lia.
Qed.

Lemma byte_of_Z_mod (v : Z) : byte_of_Z (v mod 256) = byte_of_Z v.
Proof. unfold byte_of_Z. rewrite Z.mod_mod by lia. reflexivity. Qed.

(** ** Slices *)

Lemma elems_append growslice (s : slice) (xs : list byte) :
  elems (append growslice s xs) = elems s ++ xs.
Proof. unfold append. destruct (length xs <=? length (spare s))%nat; reflexivity. Qed.

Lemma cap_append growslice (s : slice) (xs : list byte) :
  (len s + length xs <= cap (append growslice s xs))%nat.
Proof.
  unfold cap. rewrite elems_append, length_app. unfold len. lia.
Qed.

(** ** The packet codec *)

Lemma length_newCTAPHIDMessageHeader channelID command length' :
  length (newCTAPHIDMessageHeader channelID command length') = 7%nat.
Proof. reflexivity. Qed.

Lemma length_pad src size :
  (length src <= size)%nat -> length (pad src size) = size.
Proof. intros H. unfold pad. rewrite length_app, length_replicate. lia. Qed.

Lemma length_packet_header channelId command sequence payload :
  (length (packet_header channelId command sequence payload) + room sequence = 64)%nat.
Proof. unfold packet_header, room. destruct (sequence <? 0); reflexivity. Qed.

Lemma createResponsePackets_loop_step fuel channelId command sequence b payload :
  createResponsePackets_loop (S fuel) channelId command sequence (b :: payload) =
  pad (packet_header channelId command sequence (b :: payload)
         ++ take (room sequence) (b :: payload)) 64
    :: createResponsePackets_loop fuel channelId command (sequence + 1)
         (drop (room sequence) (b :: payload)).
Proof.
  cbn [createResponsePackets_loop].
  change (0 <? length (b :: payload))%nat with true. cbv iota.
  fold (packet_header channelId command sequence (b :: payload)).
  pose proof (length_packet_header channelId command sequence (b :: payload)) as Hl.
  unfold CTAPHIDSERVER_MAX_PACKET_SIZE.
  replace (64 - length (packet_header channelId command sequence (b :: payload)))%nat
    with (room sequence) by lia.
  destruct (length (b :: payload) <? room sequence)%nat eqn:E.
  - apply Nat.ltb_lt in E.
    rewrite !take_ge, !drop_ge by lia. reflexivity.
  - reflexivity.
Qed.

Lemma createResponsePackets_loop_nil fuel channelId command sequence :
  createResponsePackets_loop fuel channelId command sequence [] = [].
Proof. destruct fuel; reflexivity. Qed.

Lemma room_pos sequence : (1 <= room sequence)%nat.
Proof. unfold room. destruct (sequence <? 0); lia. Qed.

(** The fuel [len(payload)] is enough: more fuel changes nothing. *)
Lemma createResponsePackets_loop_fuel fuel1 fuel2 channelId command sequence payload :
  (length payload <= fuel1)%nat -> (length payload <= fuel2)%nat ->
  createResponsePackets_loop fuel1 channelId command sequence payload =
  createResponsePackets_loop fuel2 channelId command sequence payload.
Proof.
  revert fuel2 sequence payload.
  induction fuel1 as [|fuel1 IH]; intros fuel2 sequence payload H1 H2.
  - destruct payload; [|simpl in H1; lia].
    rewrite !createResponsePackets_loop_nil. reflexivity.
  - destruct payload as [|b payload].
    { rewrite !createResponsePackets_loop_nil. reflexivity. }
    destruct fuel2 as [|fuel2]; [simpl in H2; lia|].
    rewrite !createResponsePackets_loop_step. f_equal.
    pose proof (room_pos sequence).
    apply IH; rewrite length_drop; simpl in *; lia.
Qed.

Lemma createResponsePackets_cons channelId command b payload :
  createResponsePackets channelId command (b :: payload) =
  pad (newCTAPHIDMessageHeader channelId command
         (uint16 (Z.of_nat (length (b :: payload))))
         ++ take 57 (b :: payload)) 64
    :: createResponsePackets_loop (length payload) channelId command 0
         (drop 57 (b :: payload)).
Proof.
  unfold createResponsePackets.
  change (createResponsePackets_loop (length (b :: payload)))
    with (createResponsePackets_loop (S (length payload))).
  rewrite createResponsePackets_loop_step. reflexivity.
Qed.

Lemma lookup_head {A} (x y : A) (l : list A) : (x :: l) !! 0%nat = Some y -> y = x.
Proof. intros [= ->]. reflexivity. Qed.

Lemma lookup_tail {A} (x y : A) (l : list A) (j : nat) :
  (x :: l) !! S j = Some y -> l !! j = Some y.
Proof. intros H. exact H. Qed.

Lemma pad_packet header chunk (n : nat) :
  (length header + n = 64)%nat -> (length chunk <= n)%nat ->
  pad (header ++ chunk) 64 = header ++ chunk ++ replicate (n - length chunk) x00.
Proof.
  intros Hh Hc. unfold pad. rewrite <- app_assoc, length_app.
  do 3 f_equal. lia.
Qed.

(** The continuation packets: the [j]-th packet that the loop emits from
    sequence number [sequence >= 0] on. *)
Lemma createResponsePackets_loop_lookup fuel channelId command sequence rest j packet :
  0 <= sequence ->
  createResponsePackets_loop fuel channelId command sequence rest !! j = Some packet ->
  packet = toLE_ChannelID channelId ++ [byte_of_Z (sequence + Z.of_nat j)]
             ++ take 59 (drop (59 * j) rest)
             ++ replicate (59 - length (drop (59 * j) rest)) x00.
Proof.
  revert sequence rest j packet.
  induction fuel as [|fuel IH]; intros sequence rest j packet Hs Hj; [discriminate|].
  destruct rest as [|b rest].
  { rewrite createResponsePackets_loop_nil in Hj. discriminate. }
  rewrite createResponsePackets_loop_step in Hj.
  assert (Hroom : room sequence = 59%nat).
  { unfold room. destruct (Z.ltb_spec sequence 0); [lia|reflexivity]. }
  assert (Hhdr : packet_header channelId command sequence (b :: rest) =
                 toLE_ChannelID channelId ++ [byte_of_Z sequence]).
  { unfold packet_header. destruct (Z.ltb_spec sequence 0); [lia|reflexivity]. }
  rewrite Hroom, Hhdr in Hj.
  destruct j as [|j].
  - apply lookup_head in Hj as ->.
    rewrite (pad_packet _ _ 59) by (try reflexivity; rewrite length_take; lia).
    rewrite Nat.mul_0_r, drop_0, Z.add_0_r, <- app_assoc, length_take.
    do 4 f_equal. lia.
  - apply lookup_tail, IH in Hj; [|lia].
    rewrite drop_drop in Hj.
    replace (sequence + 1 + Z.of_nat j) with (sequence + Z.of_nat (S j)) in Hj by lia.
    replace (59 + 59 * j)%nat with (59 * S j)%nat in Hj by lia.
    exact Hj.
Qed.

(** C6 (as the code has it). Every packet that [createResponsePackets]
    emits is 64 bytes long and zero-padded. The first packet is the channel
    id (4 bytes, little-endian), the command byte, [uint16(len(payload))]
    (2 bytes, big-endian: the payload length up to 65535 bytes, its
    remainder modulo 65536 beyond) and the first 57 payload bytes; the
    continuation packet number [j] (counted from 0) is the channel id
    (4 bytes, little-endian), the byte [uint8(j)] (the sequence number [j]
    up to 255, starting again at 0 after it) and the next 59 payload
    bytes. *)
Theorem createResponsePackets_layout channelId command payload (i : nat) packet :
  createResponsePackets channelId command payload !! i = Some packet ->
  length packet = 64%nat /\
  match i with
  | O =>
      packet = toLE_ChannelID channelId ++ [command]
                 ++ toBE_uint16 (uint16 (Z.of_nat (length payload)))
                 ++ take 57 payload
                 ++ replicate (57 - length payload) x00
  | S j =>
      packet = toLE_ChannelID channelId ++ [byte_of_Z (Z.of_nat j)]
                 ++ take 59 (drop (57 + 59 * j) payload)
                 ++ replicate (59 - length (drop (57 + 59 * j) payload)) x00
  end.
Proof.
  intros Hi.
  destruct payload as [|b payload]; [discriminate|].
  rewrite createResponsePackets_cons in Hi.
  destruct i as [|j].
  - apply lookup_head in Hi as ->.
    rewrite (pad_packet _ _ 57) by (try reflexivity; rewrite length_take; lia).
    split.
    + rewrite !length_app, length_replicate, length_take.
      rewrite length_newCTAPHIDMessageHeader. lia.
    + rewrite length_take.
      replace (57 - 57 `min` length (b :: payload))%nat
        with (57 - length (b :: payload))%nat by lia.
      reflexivity.
  - apply lookup_tail, createResponsePackets_loop_lookup in Hi; [|lia].
    rewrite drop_drop, Z.add_0_l in Hi.
    split; [|exact Hi].
    subst packet. rewrite !length_app, length_replicate, length_take.
    cbn [length toLE_ChannelID]. lia.
Qed.

Lemma createResponsePackets_layout_witness :
  length (pad (newCTAPHIDMessageHeader 1 CTAPHID_COMMAND_PING 1 ++ [x41]) 64) = 64%nat.
Proof.
  pose proof (createResponsePackets_layout 1 CTAPHID_COMMAND_PING [x41] 0
                (pad (newCTAPHIDMessageHeader 1 CTAPHID_COMMAND_PING 1 ++ [x41]) 64)
                eq_refl) as [H _].
  exact H.
Defined.

(** C7 (as the code has it). A payload of length zero yields no packet at
    all, whatever the command: the loop of [createResponsePackets] is never
    entered, and nothing in it knows of a response requirement. *)
Theorem createResponsePackets_empty channelId command :
  createResponsePackets channelId command [] = [].
Proof. reflexivity. Qed.

(** ** Reading back what the helpers write *)

Lemma readBE_toBE_uint16 (v : Z) (rest : list byte) :
  readBE_uint16 (toBE_uint16 v ++ rest) = Ok (v mod 2 ^ 16, rest).
Proof.
  unfold toBE_uint16. cbn [app readBE_uint16].
  rewrite !Z_of_byte_of_Z. do 2 f_equal.
  change (2 ^ 8) with 256. change (2 ^ 16) with 65536.
  pose proof (Z.div_mod v 256 ltac:(lia)).
  pose proof (Z.div_mod (v / 256) 256 ltac:(lia)).
  pose proof (Z.mod_pos_bound v 256 ltac:(lia)).
  pose proof (Z.mod_pos_bound (v / 256) 256 ltac:(lia)).
  apply Z.mod_unique_pos with (q := v / 256 / 256); lia.
Qed.

(** [toLE] at a channel id is read back by [readLE] as the id in 32 bits. *)
Lemma readLE_toLE_ChannelID (v : Z) (rest : list byte) :
  readLE_ChannelID (toLE_ChannelID v ++ rest) = Ok (uint32 v, rest).
Proof.
  unfold toLE_ChannelID, uint32. cbn [app readLE_ChannelID].
  rewrite !Z_of_byte_of_Z. do 2 f_equal.
  change (2 ^ 8) with 256. change (2 ^ 16) with (256 * 256).
  change (2 ^ 24) with (256 * 256 * 256).
  change (2 ^ 32) with (256 * 256 * 256 * 256).
  rewrite <- !Z.div_div by lia.
  pose proof (Z.div_mod v 256 ltac:(lia)).
  pose proof (Z.div_mod (v / 256) 256 ltac:(lia)).
  pose proof (Z.div_mod (v / 256 / 256) 256 ltac:(lia)).
  pose proof (Z.div_mod (v / 256 / 256 / 256) 256 ltac:(lia)).
  pose proof (Z.mod_pos_bound v 256 ltac:(lia)).
  pose proof (Z.mod_pos_bound (v / 256) 256 ltac:(lia)).
  pose proof (Z.mod_pos_bound (v / 256 / 256) 256 ltac:(lia)).
  pose proof (Z.mod_pos_bound (v / 256 / 256 / 256) 256 ltac:(lia)).
  apply Z.mod_unique_pos with (q := v / 256 / 256 / 256 / 256); lia.
Qed.

Lemma byte_of_Z_low (b : byte) (q : Z) : byte_of_Z (Z_of_byte b + 256 * q) = b.
Proof.
  rewrite <- byte_of_Z_mod.
  replace ((Z_of_byte b + 256 * q) mod 256) with (Z_of_byte b).
  - apply byte_of_Z_of_byte.
  - pose proof (Z_of_byte_range b).
    apply Z.mod_unique_pos with (q := q); lia.
Qed.

Lemma div_256_low (b : byte) (q : Z) : (Z_of_byte b + 256 * q) / 256 = q.
Proof.
  pose proof (Z_of_byte_range b). symmetry.
  apply Z.div_unique_pos with (r := Z_of_byte b); lia.
Qed.

Lemma toLE_readLE_ChannelID b0 b1 b2 b3 rest v rest' :
  readLE_ChannelID (b0 :: b1 :: b2 :: b3 :: rest) = Ok (v, rest') ->
  toLE_ChannelID v = [b0; b1; b2; b3] /\ rest' = rest /\ 0 <= v < 2 ^ 32.
Proof.
  cbn [readLE_ChannelID]. intros [= <- <-]. unfold toLE_ChannelID.
  pose proof (Z_of_byte_range b0). pose proof (Z_of_byte_range b1).
  pose proof (Z_of_byte_range b2). pose proof (Z_of_byte_range b3).
  split; [|split; [reflexivity | lia]].
  replace (Z_of_byte b0 + 2 ^ 8 * Z_of_byte b1 + 2 ^ 16 * Z_of_byte b2
           + 2 ^ 24 * Z_of_byte b3)
    with (Z_of_byte b0 + 256 * (Z_of_byte b1 + 256 * (Z_of_byte b2
           + 256 * (Z_of_byte b3 + 256 * 0)))) by lia.
  change (2 ^ 8) with 256. change (2 ^ 16) with (256 * 256).
  change (2 ^ 24) with (256 * 256 * 256).
  rewrite <- !Z.div_div by lia.
  rewrite !div_256_low, !byte_of_Z_low. reflexivity.
Qed.

(** ** The framing state machine *)

Section FramingSteps.
Context {Srv Resp : Type}.
Variable finalize :
  CTAPHIDChannel -> Srv -> CTAPHIDMessageHeader -> slice -> outcome (Srv * Resp).
Variable growslice : nat -> nat -> nat.

(** An initial packet on an idle channel. *)
Lemma handleMessage_with_initial c server c0 c1 c2 c3 cmd hi lo body sp :
  handleMessage_with finalize growslice (NewCTAPHIDChannel c) server
    (Slice (c0 :: c1 :: c2 :: c3 :: cmd :: hi :: lo :: body) sp) =
  let header := {| ChannelID := c; Command := cmd;
                   PayloadLength := 2 ^ 8 * Z_of_byte hi + Z_of_byte lo |} in
  if uint16 (Z.of_nat (length body)) <? PayloadLength header
  then Ok (Assembling c header (Slice body sp), server, None)
  else
    payload ← slice_to (Slice body sp) (Z.to_nat (PayloadLength header));
    '(server', response) ← finalize (NewCTAPHIDChannel c) server header payload;
    Ok (NewCTAPHIDChannel c, server', Some response).
Proof. reflexivity. Qed.

(** A continuation packet on a channel that is assembling. *)
Lemma handleMessage_with_continuation c header partial server c0 c1 c2 c3 sq body sp :
  handleMessage_with finalize growslice (Assembling c header partial) server
    (Slice (c0 :: c1 :: c2 :: c3 :: sq :: body) sp) =
  if Z.of_nat (length body) <? PayloadLength header - Z.of_nat (len partial)
  then Ok (Assembling c header (append growslice partial body), server, None)
  else
    '(server', response) ←
      finalize (Assembling c header partial) server header (append growslice partial body);
    Ok (NewCTAPHIDChannel c, server', Some response).
Proof. reflexivity. Qed.
End FramingSteps.

(** The continuation packets of a message, fed to a channel that has
    buffered everything before [rest]: the dispatcher is reached once, with
    the header of the initial packet, and the payload it is handed starts
    with the buffered bytes followed by [rest]. *)
Lemma feed_continuations (growslice : nat -> nat -> nat)
    fuel channelId command sequence rest c header partial seen :
  0 <= sequence ->
  (0 < length rest <= fuel)%nat ->
  PayloadLength header = Z.of_nat (len partial + length rest) ->
  exists payload,
    feed observe growslice (Assembling c header partial) seen
      (createResponsePackets_loop fuel channelId command sequence rest) =
    Ok (NewCTAPHIDChannel c, seen ++ [(header, payload)], [tt]) /\
    take (len partial + length rest) (elems payload) = elems partial ++ rest.
Proof.
  revert sequence rest partial.
  induction fuel as [|fuel IH]; intros sequence rest partial Hs Hl Hh; [lia|].
  destruct rest as [|b rest]; [simpl in Hl; lia|].
  rewrite createResponsePackets_loop_step.
  assert (Hroom : room sequence = 59%nat).
  { unfold room. destruct (Z.ltb_spec sequence 0); [lia|reflexivity]. }
  assert (Hhdr : packet_header channelId command sequence (b :: rest) =
                 toLE_ChannelID channelId ++ [byte_of_Z sequence]).
  { unfold packet_header. destruct (Z.ltb_spec sequence 0); [lia|reflexivity]. }
  rewrite Hroom, Hhdr.
  rewrite (pad_packet _ _ 59) by (try reflexivity; rewrite length_take; lia).
  set (body := take 59 (b :: rest)
                 ++ replicate (59 - length (take 59 (b :: rest))) x00).
  assert (Hbody : length body = 59%nat).
  { subst body. rewrite length_app, length_replicate, length_take. lia. }
  cbn [feed]. unfold full, toLE_ChannelID. cbn [app].
  rewrite handleMessage_with_continuation, Hbody, Hh.
  change (Z.of_nat 59) with 59.
  destruct (Z.ltb_spec 59 (Z.of_nat (len partial + length (b :: rest))
                            - Z.of_nat (len partial))) as [Hlt|Hge].
  - (* more continuation packets follow *)
    assert (Hb : body = take 59 (b :: rest)).
    { subst body. rewrite length_take.
      replace (59 - 59 `min` length (b :: rest))%nat with 0%nat by lia.
      apply app_nil_r. }
    cbn [mbind outcome_bind].
    destruct (IH (sequence + 1) (drop 59 (b :: rest)) (append growslice partial body))
      as (payload & Hfeed & Htake).
    + lia.
    + rewrite length_drop. simpl in *. lia.
    + rewrite Hh. unfold len. rewrite elems_append.
      rewrite length_app, length_drop, Hb, length_take. lia.
    + exists payload. rewrite Hfeed. cbn [option_list app]. split; [reflexivity|].
      revert Htake. unfold len. rewrite elems_append.
      rewrite length_app, length_drop, Hb, length_take.
      replace (length (elems partial) + 59 `min` length (b :: rest)
               + (length (b :: rest) - 59))%nat
        with (length (elems partial) + length (b :: rest))%nat by lia.
      intros ->. rewrite <- app_assoc, take_drop. reflexivity.
  - (* the last packet *)
    assert (Hb : body = (b :: rest) ++ replicate (59 - length (b :: rest)) x00).
    { subst body. rewrite take_ge by lia. reflexivity. }
    rewrite drop_ge by lia. rewrite createResponsePackets_loop_nil.
    exists (append growslice partial body). split; [reflexivity|].
    rewrite elems_append, Hb, !app_assoc.
    rewrite take_app_length'; [reflexivity|].
    rewrite length_app. reflexivity.
Qed.

Lemma BE_uint16_value (v : Z) :
  2 ^ 8 * Z_of_byte (byte_of_Z (v / 2 ^ 8)) + Z_of_byte (byte_of_Z v) = v mod 2 ^ 16.
Proof.
  pose proof (readBE_toBE_uint16 v []) as H.
  unfold toBE_uint16 in H. cbn [app readBE_uint16] in H.
  injection H as H. exact H.
Qed.

(** C3 (as the code has it). For a payload of 1 to 65535 bytes, the packets
    of [createResponsePackets], fed in order to an idle channel, reach the
    dispatcher exactly once; the header carries the channel's id, the
    command and the payload length, the channel is idle again, and the
    payload handed over starts with the original payload, byte for byte.
    When the message fits one packet (at most 57 bytes) the payload handed
    over is the original payload. *)
Theorem reassemble_createResponsePackets (growslice : nat -> nat -> nat)
    c channelId command payload :
  0 < Z.of_nat (length payload) <= 65535 ->
  exists handed,
    reassemble growslice (NewCTAPHIDChannel c) (createResponsePackets channelId command payload) =
    Ok (NewCTAPHIDChannel c,
        [({| ChannelID := c; Command := command;
             PayloadLength := Z.of_nat (length payload) |}, handed)]) /\
    take (length payload) (elems handed) = payload /\
    ((length payload <= 57)%nat -> elems handed = payload).
Proof.
  intros Hl.
  destruct payload as [|b payload]; [simpl in Hl; lia|].
  rewrite createResponsePackets_cons.
  rewrite (pad_packet _ _ 57) by (try reflexivity; rewrite length_take; lia).
  set (L := length (b :: payload)) in *.
  set (body := take 57 (b :: payload) ++ replicate (57 - length (take 57 (b :: payload))) x00).
  assert (Hbody : length body = 57%nat).
  { subst body. rewrite length_app, length_replicate, length_take. lia. }
  assert (HL : 2 ^ 8 * Z_of_byte (byte_of_Z (uint16 (Z.of_nat L) / 2 ^ 8))
               + Z_of_byte (byte_of_Z (uint16 (Z.of_nat L))) = Z.of_nat L).
  { rewrite BE_uint16_value. unfold uint16.
    rewrite Z.mod_mod by lia. apply Z.mod_small. lia. }
  unfold reassemble. cbn [feed].
  unfold full, newCTAPHIDMessageHeader, flatten, toLE_ChannelID, toLE_Command,
    toBE_uint16.
  cbn [concat app].
  rewrite handleMessage_with_initial. cbv zeta. cbn [PayloadLength].
  rewrite HL, Hbody.
  change (uint16 (Z.of_nat 57)) with 57.
  destruct (Z.ltb_spec 57 (Z.of_nat L)) as [Hlt|Hge].
  - (* the message continues in further packets *)
    assert (Hb : body = take 57 (b :: payload)).
    { subst body. rewrite length_take. fold L.
      replace (57 - 57 `min` L)%nat with 0%nat by lia. apply app_nil_r. }
    cbn [mbind outcome_bind].
    destruct (feed_continuations growslice (length payload) channelId command 0
                (drop 57 (b :: payload)) c
                {| ChannelID := c; Command := command; PayloadLength := Z.of_nat L |}
                (Slice body []) [])
      as (handed & Hfeed & Htake).
    + lia.
    + rewrite length_drop. fold L. subst L. simpl in *. lia.
    + cbn [PayloadLength]. unfold len. cbn [elems].
      rewrite Hbody, length_drop. fold L. lia.
    + exists handed. rewrite Hfeed. cbn [option_list app]. split; [reflexivity|].
      split; [|lia].
      revert Htake. unfold len. cbn [elems].
      rewrite Hbody, length_drop. fold L.
      replace (57 + (L - 57))%nat with L by lia.
      intros ->. rewrite Hb, take_drop. reflexivity.
  - (* the message fits the initial packet *)
    assert (Hb : body = (b :: payload) ++ replicate (57 - L) x00).
    { subst body. rewrite take_ge by (fold L; lia). reflexivity. }
    rewrite drop_ge by (fold L; lia).
    rewrite createResponsePackets_loop_nil.
    unfold slice_to, cap. cbn [elems spare].
    rewrite Hbody, app_nil_r, Nat2Z.id.
    cbn [length].
    destruct (Nat.leb_spec L (57 + 0)) as [_|Hn]; [|lia].
    eexists. split; [reflexivity|]. cbn [elems].
    assert (Ht : take L body = b :: payload).
    { rewrite Hb. apply take_app_length. }
    rewrite Ht. split; [apply take_ge; fold L; lia | reflexivity].
Qed.

Lemma reassemble_createResponsePackets_witness :
  exists handed,
    reassemble growslice_gc (NewCTAPHIDChannel 1)
      (createResponsePackets 1 CTAPHID_COMMAND_PING [x68; x69]) =
    Ok (NewCTAPHIDChannel 1,
        [({| ChannelID := 1; Command := CTAPHID_COMMAND_PING; PayloadLength := 2 |},
          handed)]) /\
    take 2 (elems handed) = [x68; x69] /\
    ((2 <= 57)%nat -> elems handed = [x68; x69]).
Proof.
  apply (reassemble_createResponsePackets growslice_gc 1 1 CTAPHID_COMMAND_PING [x68; x69]).
  simpl. lia.
Defined.

(** C3, the claim as it is written, at payload length 0: no packet is
    produced, so nothing reaches the dispatcher and no payload is
    reassembled. *)
Lemma reassemble_empty_payload :
  createResponsePackets 1 CTAPHID_COMMAND_PING [] = [] /\
  reassemble growslice_gc (NewCTAPHIDChannel 1) (createResponsePackets 1 CTAPHID_COMMAND_PING [])
  = Ok (NewCTAPHIDChannel 1, []) /\
  ~ (exists header handed,
       reassemble growslice_gc (NewCTAPHIDChannel 1)
         (createResponsePackets 1 CTAPHID_COMMAND_PING [])
       = Ok (NewCTAPHIDChannel 1, [(header, handed)]) /\ elems handed = []).
Proof.
  split; [reflexivity|]. split; [reflexivity|].
  intros (header & handed & H & _). discriminate H.
Qed.

(** The payload lengths listed for the round trip: a message of one packet
    arrives with its own length, a message of several packets with the
    padding of its last packet, and the empty message not at all. *)
Example handed_lengths_of_round_trip :
  map (handed_lengths growslice_gc) [0; 1; 59; 60; 63; 64; 65; 127; 128; 191; 192; 4096]%nat =
  [[]; [1]; [116]; [116]; [116]; [116]; [116]; [175]; [175]; [234]; [234];
   [4128]]%nat.
Proof. vm_compute. reflexivity. Qed.

(** What a finalizing continuation packet hands to the dispatcher: the
    buffer with the whole rest of the packet appended. *)
Lemma continuation_handed (growslice : nat -> nat -> nat)
    c header partial seen c0 c1 c2 c3 sq body sp :
  PayloadLength header - Z.of_nat (len partial) <= Z.of_nat (length body) ->
  handleMessage_with observe growslice (Assembling c header partial) seen
    (Slice (c0 :: c1 :: c2 :: c3 :: sq :: body) sp) =
  Ok (NewCTAPHIDChannel c, seen ++ [(header, append growslice partial body)], Some tt).
Proof.
  intros H. rewrite handleMessage_with_continuation.
  destruct (Z.ltb_spec (Z.of_nat (length body))
              (PayloadLength header - Z.of_nat (len partial))); [lia|].
  reflexivity.
Qed.

(** Every payload that a report of 64 bytes brings to the dispatcher can be
    resliced to 8 bytes: it is a slice of the report with the 57 bytes
    after the header within its capacity, or a buffer that holds at least
    the 59 bytes after a continuation header. *)
Lemma finalized_payload_capacity (growslice : nat -> nat -> nat)
    channel seen packet channel' seen' response :
  length packet = 64%nat ->
  handleMessage_with observe growslice channel seen (full packet)
  = Ok (channel', seen', Some response) ->
  exists header payload,
    seen' = seen ++ [(header, payload)] /\ (8 <= cap payload)%nat.
Proof.
  intros Hlen.
  destruct packet as [|c0 [|c1 [|c2 [|c3 [|c4 [|c5 [|c6 body]]]]]]];
    try discriminate Hlen.
  assert (Hbody : length body = 57%nat) by (simpl in Hlen; lia).
  destruct channel as [c h [partial|]].
  - destruct h as [header|]; [|discriminate].
    change {| channelId := c; inProgressHeader := Some header;
              inProgressPayload := Some partial |}
      with (Assembling c header partial).
    unfold full. rewrite handleMessage_with_continuation.
    destruct (Z.of_nat (length (c5 :: c6 :: body))
              <? PayloadLength header - Z.of_nat (len partial)); [discriminate|].
    intros [= _ <- _].
    exists header, (append growslice partial (c5 :: c6 :: body)). split; [reflexivity|].
    pose proof (cap_append growslice partial (c5 :: c6 :: body)) as Hcap.
    simpl in *. lia.
  - unfold handleMessage_with, full.
    cbn [inProgressPayload elems readLE_ChannelID readLE_Command readBE_uint16
         mbind outcome_bind].
    unfold slice_from, len. cbn [elems length Nat.leb Nat.add sizeOf_ChannelID
      sizeOf_Command sizeOf_uint16 drop spare mbind outcome_bind].
    set (declared := 2 ^ 8 * Z_of_byte c5 + Z_of_byte c6).
    cbn [PayloadLength]. rewrite !drop_0.
    destruct (uint16 (Z.of_nat (length body)) <? declared); [discriminate|].
    unfold slice_to, cap. cbn [elems spare].
    destruct (Nat.leb_spec (Z.to_nat declared) (length body + length (@nil byte)))
      as [Hd|Hd]; [|discriminate].
    cbn [mbind outcome_bind observe]. intros [= _ <- _].
    eexists. eexists. split; [reflexivity|].
    unfold cap. cbn [elems spare].
    rewrite length_take, length_drop, length_app. simpl in *. lia.
Qed.

(** C4, on the code: the continuation packet that completes a message of
    declared length 58 hands the dispatcher 116 bytes, the 57 buffered ones
    and all 59 bytes that follow the continuation header; the buffer is not
    cut to the declared length. *)
Theorem continuation_payload_not_truncated (growslice : nat -> nat -> nat) :
  exists handed,
    reassemble growslice (NewCTAPHIDChannel 1) [ping58_initial; ping58_continuation] =
    Ok (NewCTAPHIDChannel 1,
        [({| ChannelID := 1; Command := CTAPHID_COMMAND_PING; PayloadLength := 58 |},
          handed)]) /\
    elems handed = replicate 58 x41 ++ replicate 58 x00 /\
    len handed = 116%nat /\
    Z.of_nat (len handed) <> 58.
Proof.
  eexists. split; [vm_compute; reflexivity|].
  split; [reflexivity|]. split; [reflexivity|]. vm_compute. discriminate.
Qed.

(** ** The dispatcher *)

Lemma byte_eqb_refl (b : byte) : Byte.eqb b b = true.
Proof. apply Byte.byte_dec_lb. reflexivity. Qed.

Lemma byte_eqb_ne (a b : byte) : a <> b -> Byte.eqb a b = false.
Proof.
  intros H. destruct (Byte.eqb a b) eqn:E; [|reflexivity].
  apply Byte.byte_dec_bl in E. contradiction.
Qed.

Section Dispatcher.
Context {CTAPServer U2FServer : Type}.
Variable ctapServer_handleMessage : CTAPServer -> list byte -> CTAPServer * list byte.
Variable handleU2FMessage : U2FServer -> list byte -> U2FServer * list byte.

(** C1 (as the code has it). A finalized message whose command is not
    one that its kind of channel supports makes the dispatcher panic: on
    the broadcast channel every command other than INIT and PING, on a
    data channel every command other than MSG, CBOR and PING. No packet is
    returned. *)
Theorem unsupported_command_panics (channel : CTAPHIDChannel)
    (server : CTAPHIDServer CTAPServer U2FServer)
    (header : CTAPHIDMessageHeader) (payload : slice) :
  (channelId channel = CTAPHID_BROADCAST_CHANNEL ->
   Command header <> CTAPHID_COMMAND_INIT ->
   Command header <> CTAPHID_COMMAND_PING ->
   handleFinalizedMessage ctapServer_handleMessage handleU2FMessage
     channel server header payload
   = Panic "Invalid CTAPHID Broadcast command") /\
  (channelId channel <> CTAPHID_BROADCAST_CHANNEL ->
   Command header <> CTAPHID_COMMAND_MSG ->
   Command header <> CTAPHID_COMMAND_CBOR ->
   Command header <> CTAPHID_COMMAND_PING ->
   handleFinalizedMessage ctapServer_handleMessage handleU2FMessage
     channel server header payload
   = Panic "Invalid CTAPHID Channel command").
Proof.
  unfold handleFinalizedMessage. split.
  - intros -> Hi Hp. rewrite Z.eqb_refl. unfold handleBroadcastMessage.
    rewrite !byte_eqb_ne by assumption. reflexivity.
  - intros Hc Hm Hb Hp. apply Z.eqb_neq in Hc. rewrite Hc.
    unfold handleDataMessage.
    rewrite !byte_eqb_ne by assumption. reflexivity.
Qed.

Lemma handleBroadcastMessage_INIT (channel : CTAPHIDChannel)
    (server : CTAPHIDServer CTAPServer U2FServer)
    (header : CTAPHIDMessageHeader) (payload : slice) :
  Command header = CTAPHID_COMMAND_INIT ->
  handleBroadcastMessage channel server header payload =
  if (8 <=? cap payload)%nat then
    Ok (allocated server,
        createResponsePackets CTAPHID_BROADCAST_CHANNEL CTAPHID_COMMAND_INIT
          (take 8 (elems payload ++ spare payload)
             ++ toLE_ChannelID (uint32 (maxChannelID server + 1))
             ++ [x02; x00; x00; x01; x00]))
  else Panic "slice bounds out of range".
Proof.
  intros Hc. unfold handleBroadcastMessage, slice_to.
  rewrite Hc, byte_eqb_refl.
  destruct (Nat.leb_spec 8 (cap payload)) as [Hcap|Hcap]; [|reflexivity].
  cbn [mbind outcome_bind elems NewChannelID].
  unfold toLE_InitReponse, copy_Nonce, allocated. cbn [Nonce NewChannelID
    ProtocolVersion DeviceVersionMajor DeviceVersionMinor DeviceVersionBuild
    CapabilitiesFlags].
  assert (Hn : length (take 8 (elems payload ++ spare payload)) = 8%nat).
  { rewrite length_take, length_app. unfold cap in Hcap. lia. }
  rewrite take_app_length' by (symmetry; exact Hn). reflexivity.
Qed.
End Dispatcher.

(** C1, the claim as it is written, on a CANCEL sent to the broadcast
    channel of a new server: [handleMessage] panics, no ERROR packet with
    [CTAPHID_ERR_INVALID_COMMAND] is queued. *)
Lemma broadcast_CANCEL_panics :
  let server := newCTAPHIDServer tt tt in
  let message := report [xff; xff; xff; xff; CTAPHID_COMMAND_CANCEL; x00; x00] [] in
  handleMessage idle_processor idle_processor growslice_gc server message
  = Panic "Invalid CTAPHID Broadcast command" /\
  handleMessage idle_processor idle_processor growslice_gc server message
  <> Ok (sendResponse server
           (ctapHidError CTAPHID_BROADCAST_CHANNEL CTAPHID_ERR_INVALID_COMMAND)).
Proof.
  assert (H : handleMessage idle_processor idle_processor growslice_gc (newCTAPHIDServer tt tt)
                (report [xff; xff; xff; xff; CTAPHID_COMMAND_CANCEL; x00; x00] [])
              = Panic "Invalid CTAPHID Broadcast command")
    by (vm_compute; reflexivity).
  cbv zeta. rewrite H. split; [reflexivity | discriminate].
Qed.

Lemma unsupported_command_panics_witness :
  handleFinalizedMessage idle_processor idle_processor
    (NewCTAPHIDChannel CTAPHID_BROADCAST_CHANNEL) (newCTAPHIDServer tt tt)
    {| ChannelID := CTAPHID_BROADCAST_CHANNEL; Command := CTAPHID_COMMAND_WINK;
       PayloadLength := 0 |} (full [])
  = Panic "Invalid CTAPHID Broadcast command" /\
  handleFinalizedMessage idle_processor idle_processor
    (NewCTAPHIDChannel 1) (newCTAPHIDServer tt tt)
    {| ChannelID := 1; Command := CTAPHID_COMMAND_WINK; PayloadLength := 0 |} (full [])
  = Panic "Invalid CTAPHID Channel command".
Proof.
  split.
  - apply (unsupported_command_panics idle_processor idle_processor
             (NewCTAPHIDChannel CTAPHID_BROADCAST_CHANNEL) (newCTAPHIDServer tt tt)
             {| ChannelID := CTAPHID_BROADCAST_CHANNEL;
                Command := CTAPHID_COMMAND_WINK; PayloadLength := 0 |} (full []));
      [reflexivity | discriminate | discriminate].
  - apply (unsupported_command_panics idle_processor idle_processor
             (NewCTAPHIDChannel 1) (newCTAPHIDServer tt tt)
             {| ChannelID := 1; Command := CTAPHID_COMMAND_WINK;
                PayloadLength := 0 |} (full []));
      [discriminate | discriminate | discriminate | discriminate].
Defined.

(** C7, the claim as it is written, on an empty PING sent to data channel
    1: the message requires a response, and the dispatcher returns no
    packet for it. *)
Lemma empty_PING_gets_no_packet :
  let server := newCTAPHIDServer tt tt in
  handleDataMessage idle_processor idle_processor (NewCTAPHIDChannel 1) server
    {| ChannelID := 1; Command := CTAPHID_COMMAND_PING; PayloadLength := 0 |}
    (Slice [] (replicate 57 x00))
  = Ok (server, []) /\
  length (createResponsePackets 1 CTAPHID_COMMAND_PING []) <> 1%nat.
Proof. split; [reflexivity | discriminate]. Qed.

(** C5 (as the code has it). An INIT finalized on the broadcast channel,
    with a payload slice that can be resliced to 8 bytes (every payload
    finalized from reports of 64 bytes can), allocates the id
    [maxChannelID + 1] in 32-bit arithmetic: one more than the id allocated
    before while that was below [0xFFFFFFFF], and 1 on a new server. The
    table holds a new idle channel under that id, and the payload of the
    response is the 8 nonce bytes, the new id and the bytes
    [02 00 00 01 00]: protocol version 2, device version 0.0.1, no
    capability. *)
Theorem INIT_allocates_next_channel {CTAPServer U2FServer : Type}
    (channel : CTAPHIDChannel) (server : CTAPHIDServer CTAPServer U2FServer)
    (header : CTAPHIDMessageHeader) (payload : slice) :
  Command header = CTAPHID_COMMAND_INIT ->
  (8 <= cap payload)%nat ->
  let newId := uint32 (maxChannelID server + 1) in
  let nonce := take 8 (elems payload ++ spare payload) in
  exists server',
    handleBroadcastMessage channel server header payload =
    Ok (server',
        createResponsePackets CTAPHID_BROADCAST_CHANNEL CTAPHID_COMMAND_INIT
          (nonce ++ toLE_ChannelID newId ++ [x02; x00; x00; x01; x00])) /\
    maxChannelID server' = newId /\
    channels server' = <[ newId := NewCTAPHIDChannel newId ]> (channels server) /\
    channels server' !! newId = Some (NewCTAPHIDChannel newId) /\
    (0 <= maxChannelID server < 0xFFFFFFFF -> newId = maxChannelID server + 1) /\
    (maxChannelID server = 0 -> newId = 1) /\
    length nonce = 8%nat /\
    ((8 <= len payload)%nat -> nonce = take 8 (elems payload)).
Proof.
  intros Hc Hcap newId nonce.
  exists (allocated server).
  rewrite (handleBroadcastMessage_INIT _ _ _ _ Hc).
  destruct (Nat.leb_spec 8 (cap payload)) as [_|Hn]; [|lia].
  split; [reflexivity|]. split; [reflexivity|]. split; [reflexivity|].
  split; [apply lookup_insert_eq|].
  split.
  { intros Hm. subst newId. unfold uint32. apply Z.mod_small. lia. }
  split.
  { intros Hm. subst newId. rewrite Hm. reflexivity. }
  split.
  { subst nonce. rewrite length_take, length_app. unfold cap in Hcap. lia. }
  intros Hlen. subst nonce. unfold len in Hlen. apply take_app_le. lia.
Qed.

Lemma INIT_allocates_next_channel_witness :
  exists server',
    handleBroadcastMessage (NewCTAPHIDChannel CTAPHID_BROADCAST_CHANNEL)
      (newCTAPHIDServer tt tt)
      {| ChannelID := CTAPHID_BROADCAST_CHANNEL; Command := CTAPHID_COMMAND_INIT;
         PayloadLength := 8 |}
      (Slice [x01; x02; x03; x04; x05; x06; x07; x08] (replicate 49 x00)) =
    Ok (server',
        createResponsePackets CTAPHID_BROADCAST_CHANNEL CTAPHID_COMMAND_INIT
          ([x01; x02; x03; x04; x05; x06; x07; x08] ++ [x01; x00; x00; x00]
             ++ [x02; x00; x00; x01; x00])) /\
    maxChannelID server' = 1 /\
    channels server' !! 1 = Some (NewCTAPHIDChannel 1).
Proof.
  destruct (INIT_allocates_next_channel
              (NewCTAPHIDChannel CTAPHID_BROADCAST_CHANNEL)
              (newCTAPHIDServer tt tt)
              {| ChannelID := CTAPHID_BROADCAST_CHANNEL;
                 Command := CTAPHID_COMMAND_INIT; PayloadLength := 8 |}
              (Slice [x01; x02; x03; x04; x05; x06; x07; x08] (replicate 49 x00))
              eq_refl ltac:(vm_compute; lia))
    as (server' & H & Hmax & _ & Hch & _).
  exists server'. split; [exact H|]. split; [exact Hmax | exact Hch].
Defined.

(** C5, the claim as it is written, on a server whose last allocated id is
    [0xFFFFFFFF]: INIT allocates the id 0, which is not one greater. *)
Lemma INIT_after_last_id_allocates_zero :
  let server :=
    {| ctapServer := tt; u2fServer := tt;
       maxChannelID := 0xFFFFFFFF;
       channels := {[ CTAPHID_BROADCAST_CHANNEL :=
                        NewCTAPHIDChannel CTAPHID_BROADCAST_CHANNEL ]};
       responses := [];
       waitingForResponses := ∅ |} in
  exists server' packets,
    handleBroadcastMessage (NewCTAPHIDChannel CTAPHID_BROADCAST_CHANNEL) server
      {| ChannelID := CTAPHID_BROADCAST_CHANNEL; Command := CTAPHID_COMMAND_INIT;
         PayloadLength := 8 |}
      (Slice [x01; x02; x03; x04; x05; x06; x07; x08] (replicate 49 x00))
    = Ok (server', packets) /\
    maxChannelID server' = 0 /\
    channels server' !! 0 = Some (NewCTAPHIDChannel 0) /\
    maxChannelID server' <> maxChannelID server + 1.
Proof.
  cbv zeta. eexists. eexists. split; [reflexivity|].
  split; [reflexivity|]. split; [reflexivity|]. discriminate.
Qed.

Lemma allocate_maxChannelID {CTAPServer U2FServer : Type} (n : nat)
    (server : CTAPHIDServer CTAPServer U2FServer) :
  exists server',
    allocate (S n) server = Ok server' /\
    maxChannelID server' = uint32 (maxChannelID server + Z.of_nat (S n)).
Proof.
  revert server. induction n as [|n IH]; intros server.
  - exists (allocated server). split; reflexivity.
  - destruct (IH (allocated server)) as (server' & Ha & Hm).
    exists server'. split.
    + change (allocate (S (S n)) server) with (allocate (S n) (allocated server)).
      exact Ha.
    + rewrite Hm. unfold allocated, uint32. cbn [maxChannelID].
      rewrite Zplus_mod_idemp_l. f_equal. lia.
Qed.

Lemma last_id_reachable {CTAPServer U2FServer : Type}
    (ctap : CTAPServer) (u2f : U2FServer) :
  exists server',
    allocate (Z.to_nat 0xFFFFFFFF) (newCTAPHIDServer ctap u2f) = Ok server' /\
    maxChannelID server' = 0xFFFFFFFF.
Proof.
  assert (Hn : Z.to_nat 0xFFFFFFFF = S (Z.to_nat 0xFFFFFFFE)) by lia.
  rewrite Hn.
  destruct (allocate_maxChannelID (Z.to_nat 0xFFFFFFFE) (newCTAPHIDServer ctap u2f))
    as (server' & Ha & Hm).
  exists server'. split; [exact Ha|].
  rewrite Hm. cbn [maxChannelID newCTAPHIDServer].
  rewrite <- Hn, Z2Nat.id by lia. reflexivity.
Qed.

(** C10 (as the code has it). [handleBroadcastMessage] takes the nonce with
    [payload[:8]] and no test of the length; Go checks the upper bound of a
    reslice against the capacity. For an INIT packet on the idle broadcast
    channel whose declared payload length is below 8, the payload is a
    slice of the report, so the access panics exactly when the report
    reaches less than 15 bytes into its array; otherwise, and so for every
    report of 64 bytes, a channel is allocated and the nonce is the 8 bytes
    that follow the 7-byte header. *)
Theorem INIT_short_payloadLength {CTAPServer U2FServer : Type}
    (ctapServer_handleMessage : CTAPServer -> list byte -> CTAPServer * list byte)
    (handleU2FMessage : U2FServer -> list byte -> U2FServer * list byte)
    (growslice : nat -> nat -> nat)
    (server : CTAPHIDServer CTAPServer U2FServer)
    (message : slice) (c0 c1 c2 c3 hi lo : byte) (body : list byte) :
  elems message = c0 :: c1 :: c2 :: c3 :: CTAPHID_COMMAND_INIT :: hi :: lo :: body ->
  2 ^ 8 * Z_of_byte hi + Z_of_byte lo < 8 ->
  2 ^ 8 * Z_of_byte hi + Z_of_byte lo <= uint16 (Z.of_nat (length body)) ->
  CTAPHIDChannel_handleMessage ctapServer_handleMessage handleU2FMessage growslice
    (NewCTAPHIDChannel CTAPHID_BROADCAST_CHANNEL) server message =
  if (15 <=? cap message)%nat then
    Ok (NewCTAPHIDChannel CTAPHID_BROADCAST_CHANNEL, allocated server,
        Some (createResponsePackets CTAPHID_BROADCAST_CHANNEL CTAPHID_COMMAND_INIT
                (take 8 (body ++ spare message)
                   ++ toLE_ChannelID (uint32 (maxChannelID server + 1))
                   ++ [x02; x00; x00; x01; x00])))
  else Panic "slice bounds out of range".
Proof.
  destruct message as [els sp]. cbn [elems spare]. intros -> Hlt Hle.
  pose proof (Z_of_byte_range hi). pose proof (Z_of_byte_range lo).
  assert (Hu : uint16 (Z.of_nat (length body)) <= Z.of_nat (length body)).
  { unfold uint16. apply Z.mod_le; lia. }
  unfold CTAPHIDChannel_handleMessage.
  rewrite handleMessage_with_initial. cbv zeta. cbn [PayloadLength].
  set (declared := 2 ^ 8 * Z_of_byte hi + Z_of_byte lo) in *.
  destruct (Z.ltb_spec (uint16 (Z.of_nat (length body))) declared); [lia|].
  unfold slice_to, cap. cbn [elems spare].
  destruct (Nat.leb_spec (Z.to_nat declared) (length body + length sp)); [|lia].
  cbn [mbind outcome_bind].
  unfold handleFinalizedMessage. cbn [channelId NewCTAPHIDChannel].
  rewrite Z.eqb_refl, handleBroadcastMessage_INIT by reflexivity.
  unfold cap. cbn [elems spare length].
  rewrite take_drop.
  rewrite length_take, length_drop, length_app.
  replace (Z.to_nat declared `min` (length body + length sp)
           + (length body + length sp - Z.to_nat declared))%nat
    with (length body + length sp)%nat by lia.
  destruct (Nat.leb_spec 8 (length body + length sp)) as [H8|H8];
    destruct (Nat.leb_spec 15
                (S (S (S (S (S (S (S (length body))))))) + length sp)) as [H15|H15];
    try lia; reflexivity.
Qed.

Lemma INIT_short_payloadLength_witness :
  CTAPHIDChannel_handleMessage idle_processor idle_processor growslice_gc
    (NewCTAPHIDChannel CTAPHID_BROADCAST_CHANNEL) (newCTAPHIDServer tt tt)
    (full ([xff; xff; xff; xff; CTAPHID_COMMAND_INIT; x00; x03]
             ++ [x01; x02; x03; x04; x05; x06; x07; x08] ++ replicate 49 x00)) =
  Ok (NewCTAPHIDChannel CTAPHID_BROADCAST_CHANNEL,
      allocated (newCTAPHIDServer tt tt),
      Some (createResponsePackets CTAPHID_BROADCAST_CHANNEL CTAPHID_COMMAND_INIT
              ([x01; x02; x03; x04; x05; x06; x07; x08] ++ [x01; x00; x00; x00]
                 ++ [x02; x00; x00; x01; x00]))).
Proof.
  exact (INIT_short_payloadLength idle_processor idle_processor growslice_gc
           (newCTAPHIDServer tt tt)
           (full ([xff; xff; xff; xff; CTAPHID_COMMAND_INIT; x00; x03]
                    ++ [x01; x02; x03; x04; x05; x06; x07; x08] ++ replicate 49 x00))
           xff xff xff xff x00 x03
           ([x01; x02; x03; x04; x05; x06; x07; x08] ++ replicate 49 x00)
           eq_refl ltac:(vm_compute; reflexivity)
           ltac:(vm_compute; discriminate)).
Defined.

(** C10, the claim as it is written, on a 64-byte INIT report that declares
    a payload of 3 bytes: [handleMessage] does not panic; it allocates
    channel 1 and queues the response, whose nonce is the 8 bytes after the
    header. *)
Lemma INIT_declaring_3_bytes_is_served :
  let server := newCTAPHIDServer tt tt in
  let message :=
    report [xff; xff; xff; xff; CTAPHID_COMMAND_INIT; x00; x03]
      [x01; x02; x03; x04; x05; x06; x07; x08] in
  exists server',
    handleMessage idle_processor idle_processor growslice_gc server message = Ok server' /\
    maxChannelID server' = 1 /\
    channels server' !! 1 = Some (NewCTAPHIDChannel 1) /\
    responses server' =
    [[xff; xff; xff; xff; CTAPHID_COMMAND_INIT; x00; x11]
       ++ [x01; x02; x03; x04; x05; x06; x07; x08] ++ [x01; x00; x00; x00]
       ++ [x02; x00; x00; x01; x00] ++ replicate 40 x00] /\
    (forall msg, handleMessage idle_processor idle_processor growslice_gc server message
                 <> Panic msg).
Proof.
  cbv zeta. eexists. split; [vm_compute; reflexivity|].
  split; [reflexivity|]. split; [reflexivity|]. split; [reflexivity|].
  intros msg. vm_compute. discriminate.
Qed.

(** ** The channel manager *)

Lemma ctapHidError_packet (b0 b1 b2 b3 : byte) (rest : list byte) (id : Z) (rest' : list byte)
    (err : byte) :
  readLE_ChannelID (b0 :: b1 :: b2 :: b3 :: rest) = Ok (id, rest') ->
  ctapHidError id err =
  [[b0; b1; b2; b3; CTAPHID_COMMAND_ERROR; x00; x01; err] ++ replicate 56 x00].
Proof.
  intros Hr. apply toLE_readLE_ChannelID in Hr as (Hle & _ & _).
  unfold ctapHidError. rewrite createResponsePackets_cons.
  rewrite createResponsePackets_loop_nil.
  unfold newCTAPHIDMessageHeader, flatten. cbn [concat].
  rewrite Hle. reflexivity.
Qed.

(** C2. A report whose leading channel id (4 bytes, little-endian) is not
    in the channel table makes [handleMessage] return normally with exactly
    one packet added to the response queue: the same 4 channel id bytes,
    the ERROR command, length 1, the code [CTAPHID_ERR_INVALID_CHANNEL] and
    zeros up to 64 bytes. Nothing else of the server changes, so later
    reports are handled as before. *)
Theorem handleMessage_unknown_channel {CTAPServer U2FServer : Type}
    (ctapServer_handleMessage : CTAPServer -> list byte -> CTAPServer * list byte)
    (handleU2FMessage : U2FServer -> list byte -> U2FServer * list byte)
    (growslice : nat -> nat -> nat)
    (server : CTAPHIDServer CTAPServer U2FServer) (message : slice)
    (id : Z) (rest : list byte) :
  readLE_ChannelID (elems message) = Ok (id, rest) ->
  channels server !! id = None ->
  exists packet server',
    handleMessage ctapServer_handleMessage handleU2FMessage growslice server message
    = Ok server' /\
    responses server' = responses server ++ [packet] /\
    packet = take 4 (elems message)
               ++ [CTAPHID_COMMAND_ERROR; x00; x01; CTAPHID_ERR_INVALID_CHANNEL]
               ++ replicate 56 x00 /\
    length packet = 64%nat /\
    readLE_ChannelID packet
    = Ok (id, [CTAPHID_COMMAND_ERROR; x00; x01; CTAPHID_ERR_INVALID_CHANNEL]
                ++ replicate 56 x00) /\
    channels server' = channels server /\
    maxChannelID server' = maxChannelID server /\
    waitingForResponses server' = waitingForResponses server /\
    ctapServer server' = ctapServer server /\
    u2fServer server' = u2fServer server.
Proof.
  intros Hr Hc.
  destruct (elems message) as [|b0 [|b1 [|b2 [|b3 els]]]] eqn:E; try discriminate Hr.
  pose proof (ctapHidError_packet _ _ _ _ _ _ _ CTAPHID_ERR_INVALID_CHANNEL Hr) as Hp.
  eexists. eexists. split.
  { unfold handleMessage. rewrite E, Hr. cbn [mbind outcome_bind].
    rewrite Hc, Hp. reflexivity. }
  cbn [responses sendResponse channels maxChannelID waitingForResponses
       ctapServer u2fServer].
  split; [reflexivity|]. split; [reflexivity|]. split; [reflexivity|].
  split; [|repeat split].
  cbn [readLE_ChannelID app] in *. injection Hr as <- _. reflexivity.
Qed.

Lemma handleMessage_unknown_channel_witness :
  exists packet server',
    handleMessage idle_processor idle_processor growslice_gc (newCTAPHIDServer tt tt)
      (report [x07; x00; x00; x00; CTAPHID_COMMAND_PING; x00; x01] [x41])
    = Ok server' /\
    responses server' = [packet] /\
    packet = [x07; x00; x00; x00]
               ++ [CTAPHID_COMMAND_ERROR; x00; x01; CTAPHID_ERR_INVALID_CHANNEL]
               ++ replicate 56 x00 /\
    channels server' = channels (newCTAPHIDServer tt tt).
Proof.
  destruct (handleMessage_unknown_channel idle_processor idle_processor growslice_gc
              (newCTAPHIDServer tt tt)
              (report [x07; x00; x00; x00; CTAPHID_COMMAND_PING; x00; x01] [x41])
              7 ([CTAPHID_COMMAND_PING; x00; x01; x41] ++ replicate 56 x00)
              eq_refl eq_refl)
    as (packet & server' & H & Hq & Hp & _ & _ & Hc & _).
  exists packet, server'. split; [exact H|]. split; [exact Hq|].
  split; [exact Hp | exact Hc].
Defined.

(** After the error packet the server goes on: a PING on the broadcast
    channel that follows a report for the unknown channel 7 is answered. *)
Example unknown_channel_then_PING :
  exists server' server'',
    handleMessage idle_processor idle_processor growslice_gc (newCTAPHIDServer tt tt)
      (report [x07; x00; x00; x00; CTAPHID_COMMAND_PING; x00; x01] [x41])
    = Ok server' /\
    handleMessage idle_processor idle_processor growslice_gc server'
      (report [xff; xff; xff; xff; CTAPHID_COMMAND_PING; x00; x01] [x41])
    = Ok server'' /\
    responses server'' =
    [[x07; x00; x00; x00; CTAPHID_COMMAND_ERROR; x00; x01;
      CTAPHID_ERR_INVALID_CHANNEL] ++ replicate 56 x00;
     [xff; xff; xff; xff; CTAPHID_COMMAND_PING; x00; x01; x41]
       ++ replicate 56 x00].
Proof.
  eexists. eexists. split; [vm_compute; reflexivity|].
  split; [vm_compute; reflexivity|]. reflexivity.
Qed.

(** ** The response queue and the kill switches *)

Section Waiting.
Context {CTAPServer U2FServer : Type}.
Implicit Types server : CTAPHIDServer CTAPServer U2FServer.

Lemma getResponse_response_spec server server' response :
  getResponse_response server = Some (server', response) ->
  responses server = response :: responses server' /\
  waitingForResponses server' = waitingForResponses server /\
  channels server' = channels server /\
  maxChannelID server' = maxChannelID server.
Proof.
  unfold getResponse_response.
  destruct (responses server) as [|r rest] eqn:E; [discriminate|].
  intros [= <- <-]. cbn. repeat split; reflexivity.
Qed.

(** The [select] has one outcome: a packet or [nil], with one server
    state for each. *)
Lemma getResponse_select_one_outcome sent id killSwitch server result server' :
  getResponse_select sent id killSwitch server result server' ->
  (exists response, result = Some response /\
                    getResponse_response server = Some (server', response)) \/
  (result = None /\ sent killSwitch /\ server' = getResponse_killed server id).
Proof.
  intros [s r H | H]; [left | right]; eauto.
Qed.

(** The cancellation case removes the entry of [id]. *)
Lemma getResponse_killed_removes server id :
  waitingForResponses (getResponse_killed server id) !! id = None.
Proof. cbn. apply lookup_delete_eq. Qed.

(** The delivery case leaves the entry that [getResponse] has stored. *)
Lemma getResponse_response_keeps sent server id killSwitch response server' :
  getResponse_select sent id killSwitch (getResponse_store server id killSwitch)
    (Some response) server' ->
  removeWaitingRequest_load server' id = Some killSwitch.
Proof.
  intros H. apply getResponse_select_one_outcome in H as [(r & [= <-] & H) | (H & _)];
    [|discriminate].
  apply getResponse_response_spec in H as (_ & Hw & _).
  unfold removeWaitingRequest_load. rewrite Hw. cbn. apply lookup_insert_eq.
Qed.

(** C9 (as the code has it). A caller of [getResponse] that returns a
    response has taken the packet at the head of the one queue
    [server.responses]; its [id] plays no part: a caller with any other id
    and kill switch, selecting on the same server, is handed the same
    packet. *)
Theorem getResponse_takes_queue_head sent id killSwitch server response server' :
  getResponse_select sent id killSwitch server (Some response) server' ->
  responses server = response :: responses server' /\
  forall id' killSwitch',
    getResponse_select sent id' killSwitch' server (Some response) server'.
Proof.
  intros H. apply getResponse_select_one_outcome in H as [(r & [= <-] & H) | (H & _)];
    [|discriminate].
  split.
  - apply getResponse_response_spec in H. tauto.
  - intros id' killSwitch'. apply select_response. exact H.
Qed.
End Waiting.

Lemma getResponse_takes_queue_head_witness :
  let server := sendResponse (newCTAPHIDServer tt tt) [hello_response] in
  responses server = hello_response :: responses (newCTAPHIDServer tt tt) /\
  getResponse_select (fun _ => False) 2 1 server (Some hello_response)
    (newCTAPHIDServer tt tt).
Proof.
  pose proof (getResponse_takes_queue_head (fun _ => False) 1 0
                (sendResponse (newCTAPHIDServer tt tt) [hello_response])
                hello_response (newCTAPHIDServer tt tt)
                (@select_response unit unit (fun _ => False) 1 0%nat
                   (sendResponse (newCTAPHIDServer tt tt) [hello_response])
                   (newCTAPHIDServer tt tt) hello_response eq_refl)) as [H1 H2].
  split; [exact H1 | exact (H2 2 1%nat)].
Defined.

(** C9, the claim as it is written: two callers wait, with ids 1 and 2, on
    a server with channels 1 and 2; a PING arrives on channel 2 and its
    response is queued; the caller with id 1 can return with that packet,
    just as the caller with id 2 can. *)
Lemma response_taken_by_other_caller :
  exists server1 server3 server4,
    allocate 2 (newCTAPHIDServer tt tt) = Ok server1 /\
    handleMessage idle_processor idle_processor growslice_gc
      (getResponse_store (getResponse_store server1 1 0) 2 1)
      (report [x02; x00; x00; x00; CTAPHID_COMMAND_PING; x00; x05]
         [x68; x65; x6c; x6c; x6f])
    = Ok server3 /\
    responses server3 = [hello_response] /\
    readLE_ChannelID hello_response
    = Ok (2, [CTAPHID_COMMAND_PING; x00; x05; x68; x65; x6c; x6c; x6f]
               ++ replicate 52 x00) /\
    getResponse_select (fun _ => False) 1 0 server3 (Some hello_response) server4 /\
    getResponse_select (fun _ => False) 2 1 server3 (Some hello_response) server4.
Proof.
  eexists. eexists. eexists.
  split; [vm_compute; reflexivity|].
  split; [vm_compute; reflexivity|].
  split; [reflexivity|]. split; [reflexivity|].
  split; apply select_response; reflexivity.
Qed.

(** C8, on the code: a caller registers with id 7 and kill switch 0 while
    one packet is queued and a cancellation is being sent on its kill
    switch. The [select] has exactly one of two outcomes. When it takes the
    cancellation case the entry of id 7 is deleted. When it takes the
    delivery case the call returns the packet and the entry of id 7 is
    still in [waitingForResponses]: a later [removeWaitingRequest(7)] loads
    the kill switch of the call that has returned. *)
Theorem getResponse_delivery_keeps_killSwitch :
  let server := sendResponse (newCTAPHIDServer tt tt) [hello_response] in
  let registered := getResponse_store server 7 0 in
  let sent := fun killSwitch => killSwitch = 0%nat in
  exists delivered,
    getResponse_select sent 7 0 registered (Some hello_response) delivered /\
    getResponse_select sent 7 0 registered None (getResponse_killed registered 7) /\
    (forall result server',
        getResponse_select sent 7 0 registered result server' ->
        (result = Some hello_response /\ server' = delivered) \/
        (result = None /\ server' = getResponse_killed registered 7)) /\
    waitingForResponses (getResponse_killed registered 7) !! 7 = None /\
    waitingForResponses delivered !! 7 = Some 0%nat /\
    removeWaitingRequest_load delivered 7 = Some 0%nat.
Proof.
  cbv zeta. eexists. split; [apply select_response; reflexivity|].
  split; [apply select_killSwitch; reflexivity|].
  split; [|split; [reflexivity | split; reflexivity]].
  intros result server' H.
  apply getResponse_select_one_outcome in H as [(r & -> & H) | (-> & _ & ->)].
  - injection H as <- <-. left. split; reflexivity.
  - right. split; reflexivity.
Qed.

(** * Further properties *)

(** ** The packet codec, continued *)

Lemma createResponsePackets_loop_continuation fuel channelId command sequence b rest :
  0 <= sequence ->
  createResponsePackets_loop (S fuel) channelId command sequence (b :: rest) =
  (toLE_ChannelID channelId ++ [byte_of_Z sequence] ++ take 59 (b :: rest)
     ++ replicate (59 - length (b :: rest)) x00)
    :: createResponsePackets_loop fuel channelId command (sequence + 1)
         (drop 59 (b :: rest)).
Proof.
  intros Hs. rewrite createResponsePackets_loop_step.
  unfold room, packet_header.
  destruct (Z.ltb_spec sequence 0); [lia|].
  rewrite (pad_packet _ _ 59) by (try reflexivity; rewrite length_take; lia).
  rewrite <- app_assoc, length_take. do 5 f_equal. lia.
Qed.

Lemma createResponsePackets_initial channelId command b payload :
  createResponsePackets channelId command (b :: payload) =
  (newCTAPHIDMessageHeader channelId command
     (uint16 (Z.of_nat (length (b :: payload))))
     ++ take 57 (b :: payload) ++ replicate (57 - length (b :: payload)) x00)
    :: createResponsePackets_loop (length payload) channelId command 0
         (drop 57 (b :: payload)).
Proof.
  rewrite createResponsePackets_cons.
  rewrite (pad_packet _ _ 57) by (try reflexivity; rewrite length_take; lia).
  rewrite length_take. do 4 f_equal. lia.
Qed.

Lemma createResponsePackets_loop_count fuel channelId command sequence rest :
  0 <= sequence -> (length rest <= fuel)%nat ->
  length (createResponsePackets_loop fuel channelId command sequence rest)
  = ((length rest + 58) / 59)%nat.
Proof.
  revert sequence rest.
  induction fuel as [|fuel IH]; intros sequence rest Hs Hl.
  - destruct rest; [reflexivity | simpl in Hl; lia].
  - destruct rest as [|b rest]; [reflexivity|].
    rewrite createResponsePackets_loop_continuation by exact Hs.
    cbn [length]. rewrite IH; [|lia|rewrite length_drop; simpl in *; lia].
    rewrite length_drop. cbn [length].
    destruct (Nat.le_gt_cases (S (length rest)) 59) as [Hle|Hgt].
    + replace (S (length rest) - 59)%nat with 0%nat by lia.
      change ((0 + 58) / 59)%nat with 0%nat.
      apply (Nat.div_unique _ 59 1 (S (length rest) + 58 - 59)); lia.
    + replace (S (length rest) + 58)%nat
        with ((S (length rest) - 59 + 58) + 1 * 59)%nat by lia.
      rewrite Nat.div_add by lia. lia.
Qed.

(** X1. The number of packets: none for an empty payload, otherwise the
    initial packet and one continuation for every 59 bytes, or part of 59
    bytes, beyond the first 57. *)
Theorem createResponsePackets_count channelId command payload :
  length (createResponsePackets channelId command payload) =
  match payload with
  | [] => 0%nat
  | _ :: _ => S ((length payload - 57 + 58) / 59)
  end.
Proof.
  destruct payload as [|b payload]; [reflexivity|].
  rewrite createResponsePackets_initial. cbn [length]. f_equal.
  rewrite createResponsePackets_loop_count; [|lia|rewrite length_drop; simpl; lia].
  rewrite length_drop. reflexivity.
Qed.

Lemma drop_continuation_header {A} (a b c d e : A) (l : list A) :
  drop 5 ([a; b; c; d] ++ [e] ++ l) = l.
Proof. reflexivity. Qed.

Lemma drop_initial_header {A} (a b c d e f g : A) (l : list A) :
  drop 7 (a :: b :: c :: d :: e :: f :: g :: l) = l.
Proof. reflexivity. Qed.

Lemma carried_loop fuel channelId command sequence rest :
  0 <= sequence -> (length rest <= fuel)%nat ->
  exists k : nat,
    (k <= 58)%nat /\
    concat (map (drop 5)
      (createResponsePackets_loop fuel channelId command sequence rest))
    = rest ++ replicate k x00.
Proof.
  revert sequence rest.
  induction fuel as [|fuel IH]; intros sequence rest Hs Hl.
  - destruct rest; [|simpl in Hl; lia]. exists 0%nat. split; [lia | reflexivity].
  - destruct rest as [|b rest]; [exists 0%nat; split; [lia | reflexivity]|].
    rewrite createResponsePackets_loop_continuation by exact Hs.
    cbn [map concat]. unfold toLE_ChannelID at 1.
    rewrite drop_continuation_header.
    destruct (Nat.le_gt_cases (length (b :: rest)) 59) as [Hle|Hgt].
    + exists (59 - length (b :: rest))%nat. split; [simpl; lia|].
      rewrite (take_ge (b :: rest)) by lia.
      rewrite (drop_ge (b :: rest)) by lia.
      rewrite createResponsePackets_loop_nil. cbn [map concat].
      rewrite app_nil_r. reflexivity.
    + destruct (IH (sequence + 1) (drop 59 (b :: rest))) as (k & Hk & Hc);
        [lia | rewrite length_drop; simpl in *; lia |].
      exists k. split; [exact Hk|].
      replace (59 - length (b :: rest))%nat with 0%nat by lia.
      cbn [replicate]. rewrite app_nil_r, Hc, app_assoc, take_drop. reflexivity.
Qed.

(** X2. Nothing of the payload is lost or reordered by the encoder,
    whatever its length: the bytes carried after the packet headers are the
    payload, followed only by the zero padding of the last packet, at most
    58 bytes. *)
Theorem createResponsePackets_carries_payload channelId command payload :
  exists k : nat,
    (k <= 58)%nat /\
    carried (createResponsePackets channelId command payload)
    = payload ++ replicate k x00.
Proof.
  destruct payload as [|b payload]; [exists 0%nat; split; [lia | reflexivity]|].
  rewrite createResponsePackets_initial. unfold carried.
  unfold newCTAPHIDMessageHeader, flatten, toLE_ChannelID, toLE_Command, toBE_uint16.
  cbn [concat app].
  rewrite drop_initial_header.
  destruct (Nat.le_gt_cases (length (b :: payload)) 57) as [Hle|Hgt].
  - exists (57 - length (b :: payload))%nat. split; [simpl; lia|].
    rewrite (take_ge (b :: payload)) by lia.
    rewrite (drop_ge (b :: payload)) by lia.
    rewrite createResponsePackets_loop_nil. cbn [map concat].
    rewrite app_nil_r. reflexivity.
  - destruct (carried_loop (length payload) channelId command 0
                (drop 57 (b :: payload))) as (k & Hk & Hc);
      [lia | rewrite length_drop; simpl; lia |].
    exists k. split; [exact Hk|].
    replace (57 - length (b :: payload))%nat with 0%nat by lia.
    cbn [replicate]. rewrite app_nil_r, Hc, app_assoc, take_drop. reflexivity.
Qed.

(** X3. The header of the first packet, read back with the readers of
    [CTAPHIDChannel.handleMessage]: the channel id in 32 bits, the command,
    and the payload length in 16 bits, which is the length itself up to
    65535 bytes and its remainder modulo 65536 beyond. *)
Theorem read_header_createResponsePackets channelId command b payload :
  exists first rest,
    createResponsePackets channelId command (b :: payload) = first :: rest /\
    read_header first =
    Ok (uint32 channelId, command, uint16 (Z.of_nat (length (b :: payload))),
        take 57 (b :: payload) ++ replicate (57 - length (b :: payload)) x00).
Proof.
  eexists. eexists. split; [apply createResponsePackets_initial|].
  unfold read_header, newCTAPHIDMessageHeader, flatten. cbn [concat].
  rewrite <- !app_assoc, readLE_toLE_ChannelID.
  cbn [mbind outcome_bind toLE_Command app readLE_Command].
  rewrite readBE_toBE_uint16. cbn [mbind outcome_bind].
  unfold uint16. rewrite Z.mod_mod by lia. reflexivity.
Qed.

(** In a message of 15162 bytes, continuation 255 carries the sequence
    number [ff] and continuation 256 the sequence number [00]. *)
Lemma sequence_number_restarts channelId command payload :
  length payload = Z.to_nat 15162 ->
  exists before after,
    createResponsePackets channelId command payload !! 256%nat = Some before /\
    createResponsePackets channelId command payload !! 257%nat = Some after /\
    take 5 before = toLE_ChannelID channelId ++ [xff] /\
    take 5 after = toLE_ChannelID channelId ++ [x00].
Proof.
  intros Hlen.
  destruct payload as [|b payload]; [simpl in Hlen; lia|].
  rewrite createResponsePackets_initial.
  remember (drop 57 (b :: payload)) as rest eqn:Er.
  remember (createResponsePackets_loop (length payload) channelId command 0 rest)
    as continuations eqn:Ec.
  assert (Hrest : length rest = Z.to_nat 15105).
  { subst rest. rewrite length_drop. lia. }
  assert (Hcount : length continuations = 257%nat).
  { subst continuations. rewrite createResponsePackets_loop_count;
      [|lia|cbn [length] in Hlen; lia].
    rewrite Hrest. symmetry. apply (Nat.div_unique _ 59 257 0); lia. }
  destruct (lookup_lt_is_Some_2 continuations 255) as [before Hb]; [lia|].
  destruct (lookup_lt_is_Some_2 continuations 256) as [after Ha]; [lia|].
  exists before, after.
  split; [exact Hb|]. split; [exact Ha|].
  rewrite Ec in Hb, Ha.
  apply createResponsePackets_loop_lookup in Hb; [|lia].
  apply createResponsePackets_loop_lookup in Ha; [|lia].
  rewrite Hb, Ha. split; reflexivity.
Qed.

(** C6, the claim as it is written, on two long payloads. A payload of
    65547 bytes (the PING echo of a message declared with 65535 bytes and
    assembled from 64-byte reports) gets the length field [00 0b], which is
    11 and not its length. In a payload of 15162 bytes continuation 255
    carries the sequence number [ff] and continuation 256 the sequence
    number [00]: the number has not gone up by one. *)
Lemma createResponsePackets_fields_wrap :
  (exists first rest,
     createResponsePackets 1 CTAPHID_COMMAND_PING (replicate (Z.to_nat 65547) x41)
     = first :: rest /\
     take 7 first = [x01; x00; x00; x00; CTAPHID_COMMAND_PING; x00; x0b] /\
     Z.of_nat (length (replicate (Z.to_nat 65547) x41)) <> 11) /\
  (exists before after,
     createResponsePackets 1 CTAPHID_COMMAND_PING (replicate (Z.to_nat 15162) x41)
       !! 256%nat = Some before /\
     createResponsePackets 1 CTAPHID_COMMAND_PING (replicate (Z.to_nat 15162) x41)
       !! 257%nat = Some after /\
     take 5 before = [x01; x00; x00; x00; xff] /\
     take 5 after = [x01; x00; x00; x00; x00]).
Proof.
  split.
  - replace (Z.to_nat 65547) with (S (Z.to_nat 65546)) by lia.
    cbn [replicate]. rewrite createResponsePackets_initial.
    eexists. eexists. split; [reflexivity|].
    cbn [length]. rewrite length_replicate.
    replace (uint16 (Z.of_nat (S (Z.to_nat 65546)))) with 11
      by (rewrite Nat2Z.inj_succ, Z2Nat.id by lia; reflexivity).
    split; [reflexivity | lia].
  - exact (sequence_number_restarts 1 CTAPHID_COMMAND_PING
             (replicate (Z.to_nat 15162) x41) (length_replicate _ _)).
Qed.

Lemma createResponsePackets_loop_lookup_lt fuel channelId command sequence rest j packet :
  createResponsePackets_loop fuel channelId command sequence rest !! j = Some packet ->
  (59 * j < length rest)%nat \/ (sequence < 0 /\ (57 * j < length rest)%nat).
Proof.
  revert sequence rest j packet.
  induction fuel as [|fuel IH]; intros sequence rest j packet Hj; [discriminate|].
  destruct rest as [|b rest].
  { rewrite createResponsePackets_loop_nil in Hj. discriminate. }
  rewrite createResponsePackets_loop_step in Hj.
  destruct j as [|j]; [left; simpl; lia|].
  apply lookup_tail, IH in Hj. rewrite length_drop in Hj.
  unfold room in Hj. destruct (Z.ltb_spec sequence 0) as [Hneg|Hpos].
  - right. split; [exact Hneg|]. destruct Hj as [Hj|[_ Hj]]; lia.
  - left. destruct Hj as [Hj|[Hj _]]; lia.
Qed.

Lemma isFollowupMessage_byte (id : Z) (command : byte) (n : Z) :
  isFollowupMessage {| ChannelID := id; Command := command; PayloadLength := n |}
  = (128 <=? Z_of_byte command).
Proof. unfold isFollowupMessage. cbn [Command]. destruct command; reflexivity. Qed.

(** X4. A continuation packet read as a header. Continuation [j] of a
    message lies beyond the first [57 + 59 * j] payload bytes and has the
    byte [j mod 256] where an initial packet has its command, so
    [isFollowupMessage] holds of it exactly when [j mod 256] is 128 or
    more. For a payload of at most 7609 bytes it holds of no continuation
    packet. *)
Theorem continuation_isFollowupMessage channelId command payload (j : nat) packet :
  createResponsePackets channelId command payload !! S j = Some packet ->
  (57 + 59 * j < length payload)%nat /\
  exists id n buffer,
    read_header packet = Ok (id, byte_of_Z (Z.of_nat j), n, buffer) /\
    isFollowupMessage
      {| ChannelID := id; Command := byte_of_Z (Z.of_nat j); PayloadLength := n |}
    = (128 <=? Z.of_nat j mod 256) /\
    (Z.of_nat (length payload) <= 7609 ->
     isFollowupMessage
       {| ChannelID := id; Command := byte_of_Z (Z.of_nat j); PayloadLength := n |}
     = false).
Proof.
  intros Hj.
  destruct payload as [|b payload]; [discriminate|].
  rewrite createResponsePackets_cons in Hj. apply lookup_tail in Hj.
  pose proof (createResponsePackets_loop_lookup_lt _ _ _ _ _ _ _ Hj) as [Hlt|[Hneg _]];
    [|lia].
  rewrite length_drop in Hlt.
  apply createResponsePackets_loop_lookup in Hj; [|lia].
  rewrite Z.add_0_l in Hj.
  split; [lia|].
  assert (Hlen : (2 <= length (take 59 (drop (59 * j) (drop 57 (b :: payload)))
                    ++ replicate (59 - length (drop (59 * j) (drop 57 (b :: payload))))
                         x00))%nat).
  { rewrite length_app, length_replicate, length_take, !length_drop. lia. }
  destruct (take 59 (drop (59 * j) (drop 57 (b :: payload)))
              ++ replicate (59 - length (drop (59 * j) (drop 57 (b :: payload)))) x00)
    as [|hi [|lo buffer]] eqn:E; try (simpl in Hlen; lia).
  subst packet.
  eexists. eexists. exists buffer.
  split; [reflexivity|].
  rewrite isFollowupMessage_byte, Z_of_byte_of_Z.
  split; [reflexivity|].
  intros HL. apply Z.leb_gt. rewrite Z.mod_small; lia.
Qed.

Lemma continuation_isFollowupMessage_witness :
  exists id n buffer,
    read_header ([x01; x00; x00; x00; x00; x41] ++ replicate 58 x00)
    = Ok (id, x00, n, buffer) /\
    isFollowupMessage {| ChannelID := id; Command := x00; PayloadLength := n |}
    = false.
Proof.
  destruct (continuation_isFollowupMessage 1 CTAPHID_COMMAND_PING
              (replicate 58 x41) 0
              ([x01; x00; x00; x00; x00; x41] ++ replicate 58 x00) eq_refl)
    as (_ & id & n & buffer & Hr & Hf & _).
  exists id, n, buffer. split; [exact Hr | exact Hf].
Defined.

(** ** Well-formed channels *)

Lemma channel_ok_idle (id : Z) : channel_ok id (NewCTAPHIDChannel id).
Proof. split; [reflexivity | exact I]. Qed.

Lemma channel_ok_inv id channel :
  channel_ok id channel ->
  channel = NewCTAPHIDChannel id \/
  exists header partial,
    channel = Assembling id header partial /\
    Z.of_nat (len partial) < PayloadLength header.
Proof.
  destruct channel as [c [h|] [p|]]; intros [Hc Hs]; cbn in Hc, Hs; subst c;
    try contradiction.
  - right. exists h, p. split; [reflexivity | exact Hs].
  - left. reflexivity.
Qed.

Lemma channel_ok_Assembling id header partial :
  Z.of_nat (len partial) < PayloadLength header ->
  channel_ok id (Assembling id header partial).
Proof. intros H. split; [reflexivity | exact H]. Qed.

Lemma Z_of_byte_pair_range (hi lo : byte) :
  0 <= 2 ^ 8 * Z_of_byte hi + Z_of_byte lo < 65536.
Proof.
  pose proof (Z_of_byte_range hi). pose proof (Z_of_byte_range lo).
  change (2 ^ 8) with 256. lia.
Qed.

Section ChannelSteps.
Context {Srv Resp : Type}.
Variable finalize :
  CTAPHIDChannel -> Srv -> CTAPHIDMessageHeader -> slice -> outcome (Srv * Resp).
Variable growslice : nat -> nat -> nat.

(** What a well-formed channel does with a report of at most 65535 bytes,
    when it returns: it stays well formed, and it has either buffered the
    report and left the server alone, or called the dispatcher once. *)
Lemma handleMessage_with_inv id channel (server : Srv) message channel' server' response :
  channel_ok id channel ->
  Z.of_nat (len message) <= 65535 ->
  handleMessage_with finalize growslice channel server message = Ok (channel', server', response) ->
  channel_ok id channel' /\
  ((server' = server /\ response = None) \/
   exists header payload response',
     finalize channel server header payload = Ok (server', response') /\
     response = Some response').
Proof.
  intros Hok Hlen.
  destruct message as [els sp]. unfold len in Hlen. cbn [elems] in Hlen.
  apply channel_ok_inv in Hok as [-> | (header & partial & -> & Hp)].
  - destruct els as [|c0 [|c1 [|c2 [|c3 [|cmd [|hi [|lo body]]]]]]];
      try discriminate.
    rewrite handleMessage_with_initial. cbv zeta. cbn [PayloadLength].
    pose proof (Z_of_byte_pair_range hi lo).
    set (declared := 2 ^ 8 * Z_of_byte hi + Z_of_byte lo) in *.
    assert (Hu : uint16 (Z.of_nat (length body)) = Z.of_nat (length body)).
    { unfold uint16. apply Z.mod_small. simpl in Hlen. lia. }
    rewrite Hu.
    destruct (Z.ltb_spec (Z.of_nat (length body)) declared) as [Hlt|Hge].
    + intros [= <- <- <-]. split; [|left; split; reflexivity].
      apply channel_ok_Assembling. exact Hlt.
    + destruct (slice_to (Slice body sp) (Z.to_nat declared)) as [payload|msg];
        [|discriminate].
      cbn [mbind outcome_bind].
      destruct (finalize _ server _ payload) as [[s1 r1]|msg] eqn:Ef; [|discriminate].
      cbn [mbind outcome_bind]. intros [= <- <- <-].
      split; [apply channel_ok_idle|]. right. eauto.
  - destruct els as [|c0 [|c1 [|c2 [|c3 [|sq body]]]]]; try discriminate.
    rewrite handleMessage_with_continuation.
    destruct (Z.ltb_spec (Z.of_nat (length body))
                (PayloadLength header - Z.of_nat (len partial))) as [Hlt|Hge].
    + intros [= <- <- <-]. split; [|left; split; reflexivity].
      apply channel_ok_Assembling.
      unfold len in *. rewrite elems_append, length_app. lia.
    + destruct (finalize _ server header _) as [[s1 r1]|msg] eqn:Ef; [|discriminate].
      cbn [mbind outcome_bind]. intros [= <- <- <-].
      split; [apply channel_ok_idle|]. right. eauto.
Qed.

(** What a well-formed channel does with a report of 64 bytes: it buffers
    the report, or it calls the dispatcher with a payload that can be
    resliced to 8 bytes and is at least as long as the header declares and
    less than 59 bytes longer; from the idle state the payload has exactly
    the declared length. *)
Lemma handleMessage_with_report id channel (server : Srv) packet :
  channel_ok id channel ->
  length packet = 64%nat ->
  (exists channel',
     channel_ok id channel' /\
     handleMessage_with finalize growslice channel server (full packet)
     = Ok (channel', server, None)) \/
  (exists channel' header payload,
     channel_ok id channel' /\
     PayloadLength header <= Z.of_nat (len payload) < PayloadLength header + 59 /\
     (inProgressPayload channel = None ->
      Z.of_nat (len payload) = PayloadLength header) /\
     (8 <= cap payload)%nat /\
     handleMessage_with finalize growslice channel server (full packet) =
     match finalize channel server header payload with
     | Ok (server', response) => Ok (channel', server', Some response)
     | Panic msg => Panic msg
     end).
Proof.
  intros Hok Hlen.
  destruct packet as [|c0 [|c1 [|c2 [|c3 [|c4 [|c5 [|c6 body]]]]]]];
    try discriminate Hlen.
  assert (Hbody : length body = 57%nat) by (simpl in Hlen; lia).
  unfold full.
  apply channel_ok_inv in Hok as [-> | (header & partial & -> & Hp)].
  - rewrite handleMessage_with_initial. cbv zeta. cbn [PayloadLength].
    pose proof (Z_of_byte_pair_range c5 c6).
    set (declared := 2 ^ 8 * Z_of_byte c5 + Z_of_byte c6) in *.
    rewrite Hbody. change (uint16 (Z.of_nat 57)) with 57.
    destruct (Z.ltb_spec 57 declared) as [Hlt|Hge].
    + left. eexists. split; [|reflexivity].
      apply channel_ok_Assembling. unfold len. cbn [elems PayloadLength]. lia.
    + right. unfold slice_to, cap. cbn [elems spare length].
      destruct (Nat.leb_spec (Z.to_nat declared) (length body + 0)) as [_|Hn]; [|lia].
      cbn [mbind outcome_bind].
      exists (NewCTAPHIDChannel id),
        {| ChannelID := id; Command := c4; PayloadLength := declared |},
        (Slice (take (Z.to_nat declared) (body ++ []))
           (drop (Z.to_nat declared) (body ++ []))).
      split; [apply channel_ok_idle|].
      split; [|split; [|split]].
      4:{ destruct (finalize _ server _ _) as [[s1 r1]|msg]; reflexivity. }
      * unfold len. cbn [elems PayloadLength].
        rewrite length_take, length_app. cbn [length]. lia.
      * intros _. unfold len. cbn [elems PayloadLength].
        rewrite length_take, length_app. cbn [length]. lia.
      * unfold cap. cbn [elems spare].
        rewrite length_take, length_drop, length_app. cbn [length]. lia.
  - rewrite handleMessage_with_continuation.
    assert (Hb : length (c5 :: c6 :: body) = 59%nat) by (simpl; lia).
    rewrite Hb. change (Z.of_nat 59) with 59.
    destruct (Z.ltb_spec 59 (PayloadLength header - Z.of_nat (len partial)))
      as [Hlt|Hge].
    + left. eexists. split; [|reflexivity].
      apply channel_ok_Assembling.
      unfold len in *. rewrite elems_append, length_app, Hb. lia.
    + right.
      exists (NewCTAPHIDChannel id), header, (append growslice partial (c5 :: c6 :: body)).
      split; [apply channel_ok_idle|].
      split; [|split; [|split]].
      4:{ destruct (finalize _ server header _) as [[s1 r1]|msg]; reflexivity. }
      * unfold len in *. rewrite elems_append, length_app, Hb. lia.
      * discriminate.
      * pose proof (cap_append growslice partial (c5 :: c6 :: body)) as Hcap.
        rewrite Hb in Hcap. lia.
Qed.
End ChannelSteps.

(** X5. The payload that reaches the dispatcher from reports of 64 bytes
    is never shorter than the header declares and less than 59 bytes
    longer; a message that fits its initial packet arrives with exactly the
    declared length. The channel stays well formed. *)
Theorem dispatched_payload_length (growslice : nat -> nat -> nat)
    id channel seen packet channel' seen' response :
  channel_ok id channel ->
  length packet = 64%nat ->
  handleMessage_with observe growslice channel seen (full packet)
  = Ok (channel', seen', response) ->
  channel_ok id channel' /\
  ((seen' = seen /\ response = None) \/
   exists header payload,
     seen' = seen ++ [(header, payload)] /\
     PayloadLength header <= Z.of_nat (len payload) < PayloadLength header + 59 /\
     (inProgressPayload channel = None ->
      Z.of_nat (len payload) = PayloadLength header)).
Proof.
  intros Hok Hlen Hm.
  destruct (handleMessage_with_report observe growslice id channel seen packet Hok Hlen)
    as [(ch1 & Hok1 & H1) | (ch1 & header & payload & Hok1 & Hb & Hi & _ & H1)];
    rewrite H1 in Hm.
  - injection Hm as <- <- <-. split; [exact Hok1|]. left. split; reflexivity.
  - cbn [observe] in Hm. injection Hm as <- <- <-.
    split; [exact Hok1|]. right. exists header, payload. auto.
Qed.

Lemma dispatched_payload_length_witness :
  exists header payload,
    [({| ChannelID := 1; Command := CTAPHID_COMMAND_PING; PayloadLength := 58 |},
      append growslice_gc (full (replicate 57 x41)) ([x41] ++ replicate 58 x00))]
    = [] ++ [(header, payload)] /\
    PayloadLength header <= Z.of_nat (len payload) < PayloadLength header + 59.
Proof.
  destruct (dispatched_payload_length growslice_gc 1
              (Assembling 1
                 {| ChannelID := 1; Command := CTAPHID_COMMAND_PING;
                    PayloadLength := 58 |}
                 (full (replicate 57 x41)))
              [] ping58_continuation
              (NewCTAPHIDChannel 1)
              [({| ChannelID := 1; Command := CTAPHID_COMMAND_PING;
                   PayloadLength := 58 |},
                append growslice_gc (full (replicate 57 x41)) ([x41] ++ replicate 58 x00))]
              (Some tt)
              ltac:(split; [reflexivity | vm_compute; reflexivity])
              eq_refl eq_refl)
    as (_ & [(Hs & _) | (header & payload & Hs & Hb & _)]).
  - discriminate Hs.
  - exists header, payload. split; [exact Hs | exact Hb].
Defined.

(** ** The server as a whole *)

Lemma newCTAPHIDServer_ok {CTAPServer U2FServer : Type}
    (ctap : CTAPServer) (u2f : U2FServer) :
  server_ok (newCTAPHIDServer ctap u2f).
Proof.
  split; cbn [channels newCTAPHIDServer].
  - rewrite lookup_singleton_eq. eauto.
  - intros id channel H. apply lookup_singleton_Some in H as [<- <-].
    apply channel_ok_idle.
Qed.

Section ServerSteps.
Context {CTAPServer U2FServer : Type}.
Variable ctapServer_handleMessage : CTAPServer -> list byte -> CTAPServer * list byte.
Variable handleU2FMessage : U2FServer -> list byte -> U2FServer * list byte.
Variable growslice : nat -> nat -> nat.
Implicit Types server : CTAPHIDServer CTAPServer U2FServer.

(** The dispatcher, when it returns, has left the queue and the kill
    switches alone, and has either kept the table or allocated a channel. *)
Lemma handleFinalizedMessage_Ok channel server header payload server' response :
  handleFinalizedMessage ctapServer_handleMessage handleU2FMessage
    channel server header payload = Ok (server', response) ->
  responses server' = responses server /\
  waitingForResponses server' = waitingForResponses server /\
  ((channels server' = channels server /\
    maxChannelID server' = maxChannelID server) \/
   (channels server' = channels (allocated server) /\
    maxChannelID server' = maxChannelID (allocated server))).
Proof.
  unfold handleFinalizedMessage, handleBroadcastMessage, handleDataMessage.
  destruct (channelId channel =? CTAPHID_BROADCAST_CHANNEL).
  - destruct (Byte.eqb (Command header) CTAPHID_COMMAND_INIT).
    + destruct (slice_to payload 8) as [nonce|msg]; [|discriminate].
      cbn [mbind outcome_bind]. intros [= <- <-]. cbn. auto.
    + destruct (Byte.eqb (Command header) CTAPHID_COMMAND_PING); [|discriminate].
      intros [= <- <-]. auto.
  - destruct (Byte.eqb (Command header) CTAPHID_COMMAND_MSG).
    + destruct (handleU2FMessage _ _) as [u2f' out]. intros [= <- <-]. cbn. auto.
    + destruct (Byte.eqb (Command header) CTAPHID_COMMAND_CBOR).
      * destruct (ctapServer_handleMessage _ _) as [ctap' out].
        intros [= <- <-]. cbn. auto.
      * destruct (Byte.eqb (Command header) CTAPHID_COMMAND_PING); [|discriminate].
        intros [= <- <-]. auto.
Qed.

(** The dispatcher panics on a payload that can be resliced to 8 bytes only
    for a command that the channel does not support. *)
Lemma handleFinalizedMessage_Panic channel server header payload msg :
  (8 <= cap payload)%nat ->
  handleFinalizedMessage ctapServer_handleMessage handleU2FMessage
    channel server header payload = Panic msg ->
  msg = "Invalid CTAPHID Broadcast command"%string \/
  msg = "Invalid CTAPHID Channel command"%string.
Proof.
  intros Hcap.
  unfold handleFinalizedMessage, handleBroadcastMessage, handleDataMessage, slice_to.
  destruct (channelId channel =? CTAPHID_BROADCAST_CHANNEL).
  - destruct (Byte.eqb (Command header) CTAPHID_COMMAND_INIT).
    + destruct (Nat.leb_spec 8 (cap payload)); [discriminate | lia].
    + destruct (Byte.eqb (Command header) CTAPHID_COMMAND_PING); [discriminate|].
      intros [= <-]. left. reflexivity.
  - destruct (Byte.eqb (Command header) CTAPHID_COMMAND_MSG).
    + destruct (handleU2FMessage _ _). discriminate.
    + destruct (Byte.eqb (Command header) CTAPHID_COMMAND_CBOR).
      * destruct (ctapServer_handleMessage _ _). discriminate.
      * destruct (Byte.eqb (Command header) CTAPHID_COMMAND_PING); [discriminate|].
        intros [= <-]. right. reflexivity.
Qed.

Lemma server_ok_store server id channel (table : gmap Z CTAPHIDChannel) :
  server_ok server ->
  channel_ok id channel ->
  (table = channels server \/ table = channels (allocated server)) ->
  is_Some (<[ id := channel ]> table !! CTAPHID_BROADCAST_CHANNEL) /\
  (forall id' channel', <[ id := channel ]> table !! id' = Some channel' ->
                        channel_ok id' channel') /\
  dom (channels server) ⊆ dom (<[ id := channel ]> table).
Proof.
  intros [Hb Hall] Hc Ht.
  assert (Htable : is_Some (table !! CTAPHID_BROADCAST_CHANNEL) /\
                   (forall id' channel', table !! id' = Some channel' ->
                                         channel_ok id' channel') /\
                   dom (channels server) ⊆ dom table).
  { destruct Ht as [Ht | Ht]; rewrite Ht; [auto|].
    cbn [channels allocated]. split; [|split].
    - apply lookup_insert_is_Some'. right. exact Hb.
    - intros id' channel' H. apply lookup_insert_Some in H as [[<- <-] | [_ H]].
      + apply channel_ok_idle.
      + eapply Hall, H.
    - rewrite dom_insert_L. set_solver. }
  destruct Htable as (Hb' & Hall' & Hdom). split; [|split].
  - apply lookup_insert_is_Some'. right. exact Hb'.
  - intros id' channel' H. apply lookup_insert_Some in H as [[<- <-] | [_ H]].
    + exact Hc.
    + eapply Hall', H.
  - rewrite dom_insert_L. apply union_subseteq_r'. exact Hdom.
Qed.

(** X6. [handleMessage] keeps the server well formed. When it returns on a
    well-formed server and a report of at most 65535 bytes, the broadcast
    channel is still in the table, every channel of the table carries the
    id it is stored under and is idle or assembling less than its header
    declares, no channel has left the table, the kill switches are as
    before, and the response queue has only grown at its end. *)
Theorem handleMessage_keeps_server_ok server message server' :
  server_ok server ->
  Z.of_nat (len message) <= 65535 ->
  handleMessage ctapServer_handleMessage handleU2FMessage growslice server message
  = Ok server' ->
  server_ok server' /\
  dom (channels server) ⊆ dom (channels server') /\
  waitingForResponses server' = waitingForResponses server /\
  exists sent, responses server' = responses server ++ sent.
Proof.
  intros Hok Hlen. unfold handleMessage.
  destruct (readLE_ChannelID (elems message)) as [[id rest]|msg]; [|discriminate].
  cbn [mbind outcome_bind].
  destruct (channels server !! id) as [channel|] eqn:Hc.
  - unfold CTAPHIDChannel_handleMessage.
    destruct (handleMessage_with _ _ channel server message)
      as [[[channel1 server1] response]|msg] eqn:Hm; [|discriminate].
    cbn [mbind outcome_bind].
    pose proof Hok as [_ Hall].
    apply (handleMessage_with_inv _ _ id) in Hm as [Hok1 Hs]; [|eauto|exact Hlen].
    assert (Hstep : responses server1 = responses server /\
                    waitingForResponses server1 = waitingForResponses server /\
                    (channels server1 = channels server \/
                     channels server1 = channels (allocated server))).
    { destruct Hs as [[-> _] | (header & payload & r & Hf & _)]; [auto|].
      apply handleFinalizedMessage_Ok in Hf as (Hr & Hw & [[Ht _] | [Ht _]]); auto. }
    destruct Hstep as (Hr & Hw & Ht).
    pose proof (server_ok_store server id channel1 _ Hok Hok1 Ht)
      as (Hb' & Hall' & Hdom).
    destruct response as [response|]; intros [= <-];
      cbn [channels responses waitingForResponses sendResponse store_channel];
      (split; [split; assumption|]); (split; [exact Hdom|]);
      (split; [exact Hw|]); rewrite Hr.
    + exists response. reflexivity.
    + exists []. rewrite app_nil_r. reflexivity.
  - intros [= <-]. cbn [channels responses waitingForResponses sendResponse].
    split; [exact Hok|]. split; [reflexivity|]. split; [reflexivity|]. eauto.
Qed.

(** X7. On a well-formed server, a report of 64 bytes makes
    [handleMessage] panic only through the [default] case of a command
    switch: there is no slice out of range, no nil header and no short
    read. *)
Theorem handleMessage_panics_only_in_switch server packet msg :
  server_ok server ->
  length packet = 64%nat ->
  handleMessage ctapServer_handleMessage handleU2FMessage growslice server (full packet)
  = Panic msg ->
  msg = "Invalid CTAPHID Broadcast command"%string \/
  msg = "Invalid CTAPHID Channel command"%string.
Proof.
  intros [_ Hall] Hlen. unfold handleMessage.
  destruct packet as [|c0 [|c1 [|c2 [|c3 rest]]]]; try discriminate Hlen.
  cbn [full elems readLE_ChannelID mbind outcome_bind].
  set (id := Z_of_byte c0 + 2 ^ 8 * Z_of_byte c1 + 2 ^ 16 * Z_of_byte c2
             + 2 ^ 24 * Z_of_byte c3).
  destruct (channels server !! id) as [channel|] eqn:Hc; [|discriminate].
  unfold CTAPHIDChannel_handleMessage.
  destruct (handleMessage_with_report
              (handleFinalizedMessage ctapServer_handleMessage handleU2FMessage)
              growslice id channel server (c0 :: c1 :: c2 :: c3 :: rest)
              (Hall _ _ Hc) Hlen)
    as [(ch1 & _ & H1) | (ch1 & header & payload & _ & _ & _ & Hcap & H1)];
    rewrite H1.
  - discriminate.
  - destruct (handleFinalizedMessage _ _ channel server header payload)
      as [[s1 r1]|msg'] eqn:Hf.
    + cbn [mbind outcome_bind]. discriminate.
    + cbn [mbind outcome_bind]. intros [= <-].
      eapply handleFinalizedMessage_Panic; eassumption.
Qed.
End ServerSteps.

Lemma handleMessage_keeps_server_ok_witness :
  exists server',
    handleMessage idle_processor idle_processor growslice_gc (newCTAPHIDServer tt tt)
      (report [xff; xff; xff; xff; CTAPHID_COMMAND_INIT; x00; x08]
         [x01; x02; x03; x04; x05; x06; x07; x08])
    = Ok server' /\
    server_ok server'.
Proof.
  destruct (handleMessage idle_processor idle_processor growslice_gc (newCTAPHIDServer tt tt)
              (report [xff; xff; xff; xff; CTAPHID_COMMAND_INIT; x00; x08]
                 [x01; x02; x03; x04; x05; x06; x07; x08]))
    as [server'|msg] eqn:E; [|vm_compute in E; discriminate E].
  exists server'. split; [reflexivity|].
  apply (handleMessage_keeps_server_ok idle_processor idle_processor growslice_gc
           (newCTAPHIDServer tt tt)
           (report [xff; xff; xff; xff; CTAPHID_COMMAND_INIT; x00; x08]
              [x01; x02; x03; x04; x05; x06; x07; x08])
           server' (newCTAPHIDServer_ok tt tt)
           ltac:(vm_compute; discriminate) E).
Defined.

Lemma handleMessage_panics_only_in_switch_witness :
  handleMessage idle_processor idle_processor growslice_gc (newCTAPHIDServer tt tt)
    (full ([xff; xff; xff; xff; CTAPHID_COMMAND_CANCEL; x00; x00] ++ replicate 57 x00))
  = Panic "Invalid CTAPHID Broadcast command" /\
  ("Invalid CTAPHID Broadcast command"%string
   = "Invalid CTAPHID Broadcast command"%string \/
   "Invalid CTAPHID Broadcast command"%string
   = "Invalid CTAPHID Channel command"%string).
Proof.
  assert (H : handleMessage idle_processor idle_processor growslice_gc (newCTAPHIDServer tt tt)
                (full ([xff; xff; xff; xff; CTAPHID_COMMAND_CANCEL; x00; x00]
                         ++ replicate 57 x00))
              = Panic "Invalid CTAPHID Broadcast command")
    by (vm_compute; reflexivity).
  split; [exact H|].
  exact (handleMessage_panics_only_in_switch idle_processor idle_processor growslice_gc
           (newCTAPHIDServer tt tt)
           ([xff; xff; xff; xff; CTAPHID_COMMAND_CANCEL; x00; x00] ++ replicate 57 x00)
           "Invalid CTAPHID Broadcast command"
           (newCTAPHIDServer_ok tt tt) eq_refl H).
Defined.

(** An INIT assembled from a report of 9 bytes and a report of 8 bytes,
    each filling its array: the 5 payload bytes are appended into a new
    array, and [payload[:8]] reaches into what the runtime has allocated
    beyond them. With the growth of the gc runtime the new array has 8
    bytes and the INIT is served, the nonce being the 5 bytes and 3 zeros;
    with an array that only just fits, the reslice would be out of
    range. *)
Example INIT_from_short_reports :
  let first := full [xff; xff; xff; xff; CTAPHID_COMMAND_INIT; x00; x05; x01; x02] in
  let second := full [xff; xff; xff; xff; x00; x03; x04; x05] in
  (exists server' server'',
     handleMessage idle_processor idle_processor growslice_gc
       (newCTAPHIDServer tt tt) first = Ok server' /\
     handleMessage idle_processor idle_processor growslice_gc server' second
     = Ok server'' /\
     maxChannelID server'' = 1 /\
     responses server'' =
     [[xff; xff; xff; xff; CTAPHID_COMMAND_INIT; x00; x11]
        ++ [x01; x02; x03; x04; x05; x00; x00; x00] ++ [x01; x00; x00; x00]
        ++ [x02; x00; x00; x01; x00] ++ replicate 40 x00]) /\
  (exists server',
     handleMessage idle_processor idle_processor (fun _ needed => needed)
       (newCTAPHIDServer tt tt) first = Ok server' /\
     handleMessage idle_processor idle_processor (fun _ needed => needed)
       server' second
     = Panic "slice bounds out of range").
Proof.
  cbv zeta. split.
  - eexists. eexists. split; [vm_compute; reflexivity|].
    split; [vm_compute; reflexivity|]. split; reflexivity.
  - eexists. split; [vm_compute; reflexivity|]. vm_compute. reflexivity.
Qed.

Lemma toBE_readBE_uint16 (hi lo : byte) :
  toBE_uint16 (2 ^ 8 * Z_of_byte hi + Z_of_byte lo) = [hi; lo].
Proof.
  unfold toBE_uint16. change (2 ^ 8) with 256.
  replace (256 * Z_of_byte hi + Z_of_byte lo)
    with (Z_of_byte lo + 256 * (Z_of_byte hi + 256 * 0)) by lia.
  rewrite div_256_low, !byte_of_Z_low. reflexivity.
Qed.

Lemma store_channel_same {CTAPServer U2FServer : Type}
    (server : CTAPHIDServer CTAPServer U2FServer) id channel :
  channels server !! id = Some channel ->
  store_channel server id channel = server.
Proof.
  intros H. destruct server. unfold store_channel. cbn in *.
  f_equal. apply insert_id. exact H.
Qed.

(** Decides the tests of a command [switch] on a known command. *)
Ltac switch_on_command :=
  repeat match goal with
         | |- context [Byte.eqb ?a ?b] =>
             let v := eval vm_compute in (Byte.eqb a b) in
             change (Byte.eqb a b) with v
         end;
  cbv iota.

Section SinglePacket.
Context {CTAPServer U2FServer : Type}.
Variable ctapServer_handleMessage : CTAPServer -> list byte -> CTAPServer * list byte.
Variable handleU2FMessage : U2FServer -> list byte -> U2FServer * list byte.
Variable growslice : nat -> nat -> nat.
Implicit Types server : CTAPHIDServer CTAPServer U2FServer.

(** A report of 64 bytes for an idle channel of the table, declaring at
    most the 57 bytes it carries: the dispatcher is called with the
    declared part of the report. *)
Lemma handleMessage_single_packet server (c0 c1 c2 c3 command hi lo : byte) body :
  let id := Z_of_byte c0 + 2 ^ 8 * Z_of_byte c1 + 2 ^ 16 * Z_of_byte c2
            + 2 ^ 24 * Z_of_byte c3 in
  let declared := 2 ^ 8 * Z_of_byte hi + Z_of_byte lo in
  channels server !! id = Some (NewCTAPHIDChannel id) ->
  length body = 57%nat ->
  declared <= 57 ->
  handleMessage ctapServer_handleMessage handleU2FMessage growslice server
    (full (c0 :: c1 :: c2 :: c3 :: command :: hi :: lo :: body)) =
  match handleFinalizedMessage ctapServer_handleMessage handleU2FMessage
          (NewCTAPHIDChannel id) server
          {| ChannelID := id; Command := command; PayloadLength := declared |}
          (Slice (take (Z.to_nat declared) body) (drop (Z.to_nat declared) body)) with
  | Ok (server', response) =>
      Ok (sendResponse (store_channel server' id (NewCTAPHIDChannel id)) response)
  | Panic msg => Panic msg
  end.
Proof.
  intros id declared Hc Hbody Hd.
  unfold handleMessage.
  cbn [full elems readLE_ChannelID mbind outcome_bind]. fold id. rewrite Hc.
  unfold CTAPHIDChannel_handleMessage, full.
  rewrite handleMessage_with_initial. cbv zeta. cbn [PayloadLength]. fold declared.
  rewrite Hbody. change (uint16 (Z.of_nat 57)) with 57.
  destruct (Z.ltb_spec 57 declared) as [Hlt|_]; [lia|].
  pose proof (Z_of_byte_pair_range hi lo). fold declared in H.
  unfold slice_to, cap. cbn [elems spare length].
  destruct (Nat.leb_spec (Z.to_nat declared) (length body + 0)) as [_|Hn]; [|lia].
  cbn [mbind outcome_bind]. rewrite app_nil_r.
  destruct (handleFinalizedMessage _ _ _ server _ _) as [[s1 r1]|msg]; reflexivity.
Qed.

(** X8. PING on any idle channel of the table, the broadcast channel
    included, in one report of 64 bytes that declares [n <= 57] bytes: the
    [n] bytes after the header are queued as a PING response for the same
    channel, and nothing else of the server changes. For [n >= 1] the
    response is one packet: the 7 header bytes of the request, its [n]
    payload bytes, and zeros. *)
Theorem handleMessage_PING_echo server (c0 c1 c2 c3 hi lo : byte) body :
  let id := Z_of_byte c0 + 2 ^ 8 * Z_of_byte c1 + 2 ^ 16 * Z_of_byte c2
            + 2 ^ 24 * Z_of_byte c3 in
  let declared := 2 ^ 8 * Z_of_byte hi + Z_of_byte lo in
  channels server !! id = Some (NewCTAPHIDChannel id) ->
  length body = 57%nat ->
  declared <= 57 ->
  handleMessage ctapServer_handleMessage handleU2FMessage growslice server
    (full (c0 :: c1 :: c2 :: c3 :: CTAPHID_COMMAND_PING :: hi :: lo :: body)) =
  Ok (sendResponse server
        (createResponsePackets id CTAPHID_COMMAND_PING
           (take (Z.to_nat declared) body))) /\
  (1 <= declared ->
   createResponsePackets id CTAPHID_COMMAND_PING (take (Z.to_nat declared) body) =
   [[c0; c1; c2; c3; CTAPHID_COMMAND_PING; hi; lo]
      ++ take (Z.to_nat declared) body
      ++ replicate (57 - Z.to_nat declared) x00]).
Proof.
  intros id declared Hc Hbody Hd. split.
  - rewrite handleMessage_single_packet by assumption. fold id declared.
    unfold handleFinalizedMessage, handleBroadcastMessage, handleDataMessage.
    cbn [channelId NewCTAPHIDChannel Command ChannelID elems].
    destruct (Z.eqb_spec id CTAPHID_BROADCAST_CHANNEL) as [He|_].
    + switch_on_command. rewrite store_channel_same by exact Hc.
      rewrite He. reflexivity.
    + switch_on_command. rewrite store_channel_same by exact Hc. reflexivity.
  - intros H1.
    assert (Hlen : length (take (Z.to_nat declared) body) = Z.to_nat declared).
    { rewrite length_take. lia. }
    destruct (take (Z.to_nat declared) body) as [|b chunk] eqn:E;
      [simpl in Hlen; lia|].
    rewrite createResponsePackets_initial.
    rewrite drop_ge, take_ge by lia.
    rewrite createResponsePackets_loop_nil, Hlen.
    unfold newCTAPHIDMessageHeader, flatten. cbn [concat].
    pose proof (toLE_readLE_ChannelID c0 c1 c2 c3 [] id [] eq_refl) as (Hle & _ & _).
    rewrite Hle. unfold uint16. rewrite Z2Nat.id, Z.mod_small by lia.
    fold declared. unfold declared at 1. rewrite toBE_readBE_uint16.
    reflexivity.
Qed.

(** X9. CBOR and MSG on an idle data channel of the table, in one report
    of 64 bytes that declares [n <= 57] bytes: the external processor is
    run once on the [n] bytes after the header, its new state is kept, and
    what it returns is queued as a response of the same command for the
    same channel. Table, counter, kill switches and the other processor are
    as before. *)
Theorem handleMessage_processor_message server (c0 c1 c2 c3 hi lo : byte) body :
  let id := Z_of_byte c0 + 2 ^ 8 * Z_of_byte c1 + 2 ^ 16 * Z_of_byte c2
            + 2 ^ 24 * Z_of_byte c3 in
  let payload := take (Z.to_nat (2 ^ 8 * Z_of_byte hi + Z_of_byte lo)) body in
  channels server !! id = Some (NewCTAPHIDChannel id) ->
  id <> CTAPHID_BROADCAST_CHANNEL ->
  length body = 57%nat ->
  2 ^ 8 * Z_of_byte hi + Z_of_byte lo <= 57 ->
  (exists server',
     handleMessage ctapServer_handleMessage handleU2FMessage growslice server
       (full (c0 :: c1 :: c2 :: c3 :: CTAPHID_COMMAND_CBOR :: hi :: lo :: body))
     = Ok server' /\
     ctapServer server' = fst (ctapServer_handleMessage (ctapServer server) payload) /\
     responses server' =
     responses server ++
       createResponsePackets id CTAPHID_COMMAND_CBOR
         (snd (ctapServer_handleMessage (ctapServer server) payload)) /\
     u2fServer server' = u2fServer server /\
     channels server' = channels server /\
     maxChannelID server' = maxChannelID server /\
     waitingForResponses server' = waitingForResponses server) /\
  (exists server',
     handleMessage ctapServer_handleMessage handleU2FMessage growslice server
       (full (c0 :: c1 :: c2 :: c3 :: CTAPHID_COMMAND_MSG :: hi :: lo :: body))
     = Ok server' /\
     u2fServer server' = fst (handleU2FMessage (u2fServer server) payload) /\
     responses server' =
     responses server ++
       createResponsePackets id CTAPHID_COMMAND_MSG
         (snd (handleU2FMessage (u2fServer server) payload)) /\
     ctapServer server' = ctapServer server /\
     channels server' = channels server /\
     maxChannelID server' = maxChannelID server /\
     waitingForResponses server' = waitingForResponses server).
Proof.
  intros id payload Hc Hne Hbody Hd.
  apply Z.eqb_neq in Hne.
  split.
  - rewrite handleMessage_single_packet by assumption. fold id payload.
    unfold handleFinalizedMessage, handleDataMessage.
    cbn [channelId NewCTAPHIDChannel Command ChannelID elems]. rewrite Hne.
    switch_on_command.
    destruct (ctapServer_handleMessage (ctapServer server) payload) as [ctap' out].
    eexists. split; [reflexivity|].
    cbn [ctapServer u2fServer responses channels maxChannelID waitingForResponses
         sendResponse store_channel fst snd].
    repeat split. apply insert_id. exact Hc.
  - rewrite handleMessage_single_packet by assumption. fold id payload.
    unfold handleFinalizedMessage, handleDataMessage.
    cbn [channelId NewCTAPHIDChannel Command ChannelID elems]. rewrite Hne.
    switch_on_command.
    destruct (handleU2FMessage (u2fServer server) payload) as [u2f' out].
    eexists. split; [reflexivity|].
    cbn [ctapServer u2fServer responses channels maxChannelID waitingForResponses
         sendResponse store_channel fst snd].
    repeat split. apply insert_id. exact Hc.
Qed.
End SinglePacket.

Lemma handleMessage_PING_echo_witness :
  handleMessage idle_processor idle_processor growslice_gc (allocated (newCTAPHIDServer tt tt))
    (full ([x01; x00; x00; x00; CTAPHID_COMMAND_PING; x00; x05]
             ++ [x68; x65; x6c; x6c; x6f] ++ replicate 52 x00))
  = Ok (sendResponse (allocated (newCTAPHIDServer tt tt))
          [[x01; x00; x00; x00; CTAPHID_COMMAND_PING; x00; x05]
             ++ [x68; x65; x6c; x6c; x6f] ++ replicate 52 x00]).
Proof.
  exact (proj1 (handleMessage_PING_echo idle_processor idle_processor growslice_gc
                  (allocated (newCTAPHIDServer tt tt))
                  x01 x00 x00 x00 x00 x05
                  ([x68; x65; x6c; x6c; x6f] ++ replicate 52 x00)
                  eq_refl eq_refl ltac:(vm_compute; discriminate))).
Defined.

Lemma handleMessage_processor_message_witness :
  exists server',
    handleMessage idle_processor idle_processor growslice_gc (allocated (newCTAPHIDServer tt tt))
      (full ([x01; x00; x00; x00; CTAPHID_COMMAND_CBOR; x00; x01]
               ++ [x04] ++ replicate 56 x00))
    = Ok server' /\
    responses server' =
    [[x01; x00; x00; x00; CTAPHID_COMMAND_CBOR; x00; x01; x04] ++ replicate 56 x00].
Proof.
  destruct (proj1 (handleMessage_processor_message idle_processor idle_processor growslice_gc
                     (allocated (newCTAPHIDServer tt tt))
                     x01 x00 x00 x00 x00 x01 ([x04] ++ replicate 56 x00)
                     eq_refl ltac:(vm_compute; discriminate) eq_refl
                     ltac:(vm_compute; discriminate)))
    as (server' & H & _ & Hr & _).
  exists server'. split; [exact H | exact Hr].
Defined.

(** ** Channel allocation, continued *)

Lemma allocate_S {CTAPServer U2FServer : Type} (n : nat)
    (server : CTAPHIDServer CTAPServer U2FServer) :
  allocate (S n) server = allocate n (allocated server).
Proof. reflexivity. Qed.

(** X10. [n] INIT requests in a row, while the counter stays below
    [0xFFFFFFFF]: all succeed, the counter has advanced by [n], and the
    table holds a new idle channel under each of the [n] ids after the old
    counter and is otherwise as it was. On a new server the ids are
    [1 .. n], all distinct from the broadcast id. *)
Theorem allocate_table {CTAPServer U2FServer : Type} (n : nat)
    (server : CTAPHIDServer CTAPServer U2FServer) :
  0 <= maxChannelID server ->
  maxChannelID server + Z.of_nat n < 0xFFFFFFFF ->
  exists server',
    allocate n server = Ok server' /\
    maxChannelID server' = maxChannelID server + Z.of_nat n /\
    forall id,
      channels server' !! id =
      if decide (maxChannelID server < id <= maxChannelID server + Z.of_nat n)
      then Some (NewCTAPHIDChannel id)
      else channels server !! id.
Proof.
  revert server. induction n as [|n IH]; intros server H0 Hn.
  - exists server. split; [reflexivity|]. split; [lia|].
    intros id. destruct (decide _); [lia | reflexivity].
  - assert (Hu : uint32 (maxChannelID server + 1) = maxChannelID server + 1).
    { unfold uint32. apply Z.mod_small. lia. }
    destruct (IH (allocated server)) as (server' & Ha & Hm & Ht).
    { cbn [maxChannelID allocated]. lia. }
    { cbn [maxChannelID allocated]. lia. }
    cbn [maxChannelID allocated channels] in Hm, Ht. rewrite Hu in Hm, Ht.
    exists server'. split; [rewrite allocate_S; exact Ha|]. split; [lia|].
    intros id. rewrite Ht.
    destruct (decide (maxChannelID server + 1 < id
                      <= maxChannelID server + 1 + Z.of_nat n)) as [Hin|Hout];
      destruct (decide (maxChannelID server < id
                        <= maxChannelID server + Z.of_nat (S n))) as [Hin'|Hout'];
      try lia; try reflexivity.
    + assert (id = maxChannelID server + 1) as -> by lia.
      apply lookup_insert_eq.
    + rewrite lookup_insert_ne by lia. reflexivity.
Qed.

Lemma allocate_table_witness :
  exists server',
    allocate 3 (newCTAPHIDServer tt tt) = Ok server' /\
    maxChannelID server' = 3 /\
    channels server' !! 2 = Some (NewCTAPHIDChannel 2) /\
    channels server' !! CTAPHID_BROADCAST_CHANNEL
    = Some (NewCTAPHIDChannel CTAPHID_BROADCAST_CHANNEL).
Proof.
  destruct (allocate_table 3 (newCTAPHIDServer tt tt)
              ltac:(vm_compute; discriminate) ltac:(vm_compute; reflexivity))
    as (server' & Ha & Hm & Ht).
  exists server'. split; [exact Ha|]. split; [exact Hm|].
  split; [exact (Ht 2) | exact (Ht CTAPHID_BROADCAST_CHANNEL)].
Defined.

(** X11. The INIT that follows the id [0xFFFFFFFE] hands out the id of the
    broadcast channel: the response carries [ff ff ff ff] as the new
    channel id, and the broadcast entry of the table is replaced by a new
    idle channel. *)
Theorem INIT_hands_out_broadcast_id {CTAPServer U2FServer : Type}
    (channel : CTAPHIDChannel) (server : CTAPHIDServer CTAPServer U2FServer)
    (header : CTAPHIDMessageHeader) (payload : slice) :
  Command header = CTAPHID_COMMAND_INIT ->
  (8 <= cap payload)%nat ->
  maxChannelID server = 0xFFFFFFFE ->
  exists server',
    handleBroadcastMessage channel server header payload =
    Ok (server',
        createResponsePackets CTAPHID_BROADCAST_CHANNEL CTAPHID_COMMAND_INIT
          (take 8 (elems payload ++ spare payload) ++ [xff; xff; xff; xff]
             ++ [x02; x00; x00; x01; x00])) /\
    maxChannelID server' = CTAPHID_BROADCAST_CHANNEL /\
    channels server' =
    <[ CTAPHID_BROADCAST_CHANNEL := NewCTAPHIDChannel CTAPHID_BROADCAST_CHANNEL ]>
      (channels server).
Proof.
  intros Hc Hcap Hm. exists (allocated server).
  rewrite handleBroadcastMessage_INIT by exact Hc.
  destruct (Nat.leb_spec 8 (cap payload)) as [_|Hn]; [|lia].
  unfold allocated. cbn [maxChannelID channels]. rewrite Hm.
  split; [reflexivity|]. split; reflexivity.
Qed.

Lemma INIT_hands_out_broadcast_id_witness :
  exists server',
    handleBroadcastMessage (NewCTAPHIDChannel CTAPHID_BROADCAST_CHANNEL)
      {| ctapServer := tt; u2fServer := tt; maxChannelID := 0xFFFFFFFE;
         channels := {[ CTAPHID_BROADCAST_CHANNEL :=
                          NewCTAPHIDChannel CTAPHID_BROADCAST_CHANNEL ]};
         responses := []; waitingForResponses := ∅ |}
      INIT_request (full (replicate 8 x00)) =
    Ok (server',
        createResponsePackets CTAPHID_BROADCAST_CHANNEL CTAPHID_COMMAND_INIT
          (replicate 8 x00 ++ [xff; xff; xff; xff] ++ [x02; x00; x00; x01; x00])) /\
    maxChannelID server' = CTAPHID_BROADCAST_CHANNEL.
Proof.
  destruct (INIT_hands_out_broadcast_id
              (NewCTAPHIDChannel CTAPHID_BROADCAST_CHANNEL)
              {| ctapServer := tt; u2fServer := tt; maxChannelID := 0xFFFFFFFE;
                 channels := {[ CTAPHID_BROADCAST_CHANNEL :=
                                  NewCTAPHIDChannel CTAPHID_BROADCAST_CHANNEL ]};
                 responses := []; waitingForResponses := ∅ |}
              INIT_request (full (replicate 8 x00))
              eq_refl ltac:(vm_compute; lia) eq_refl)
    as (server' & H & Hm & _).
  exists server'. split; [exact H | exact Hm].
Defined.

(** ** The response queue and the kill switches, continued *)

Section Queue.
Context {CTAPServer U2FServer : Type}.
Implicit Types server : CTAPHIDServer CTAPServer U2FServer.

Lemma receive_spec (callers : list (Z * nat)) server :
  fst (receive callers server) = take (length callers) (responses server) /\
  responses (snd (receive callers server))
  = drop (length callers) (responses server) /\
  waitingForResponses (snd (receive callers server))
  = stored (waitingForResponses server)
      (take (S (length (responses server))) callers) /\
  channels (snd (receive callers server)) = channels server /\
  maxChannelID (snd (receive callers server)) = maxChannelID server.
Proof.
  revert server. induction callers as [|[id killSwitch] callers IH]; intros server.
  - cbn [receive fst snd length]. rewrite take_0, drop_0. auto.
  - cbn [receive]. unfold getResponse_response.
    cbn [responses getResponse_store set_waiting].
    destruct (responses server) as [|response rest] eqn:E.
    + cbn [fst snd responses waitingForResponses channels maxChannelID
           getResponse_store set_waiting length].
      rewrite E. auto.
    + match goal with
      | |- context [receive callers ?s] =>
          specialize (IH s); destruct (receive callers s) as [received s'']
      end.
      cbn [fst snd responses waitingForResponses channels maxChannelID
           getResponse_store set_waiting length] in *.
      destruct IH as (-> & -> & -> & -> & ->). auto.
Qed.

(** X12. The queue is first in, first out. After [sendResponse], calls of
    [getResponse] that take the delivery case return, one packet per call
    and in the order of the calls, the packets queued before followed by
    the packets of the response in their order; the rest stays queued.
    Every call that has run, also the one left waiting at an empty queue,
    has its kill switch stored under its id afterwards. *)
Theorem receive_sendResponse (callers : list (Z * nat)) server
    (packets : list (list byte)) :
  fst (receive callers (sendResponse server packets))
  = take (length callers) (responses server ++ packets) /\
  responses (snd (receive callers (sendResponse server packets)))
  = drop (length callers) (responses server ++ packets) /\
  waitingForResponses (snd (receive callers (sendResponse server packets)))
  = stored (waitingForResponses server)
      (take (S (length (responses server ++ packets))) callers).
Proof.
  destruct (receive_spec callers (sendResponse server packets)) as (H1 & H2 & H3 & _).
  rewrite H1, H2, H3. auto.
Qed.

(** Three callers and three queued packets: each call returns a packet and
    leaves its kill switch in [waitingForResponses]. *)
Example three_callers_leave_kill_switches :
  let server :=
    sendResponse (newCTAPHIDServer tt tt)
      [hello_response; hello_response; hello_response] in
  fst (receive [(10, 0%nat); (11, 1%nat); (12, 2%nat)] server)
  = [hello_response; hello_response; hello_response] /\
  waitingForResponses (snd (receive [(10, 0%nat); (11, 1%nat); (12, 2%nat)] server))
  = <[ 12 := 2%nat ]> (<[ 11 := 1%nat ]> (<[ 10 := 0%nat ]> ∅)).
Proof. split; reflexivity. Qed.

(** X13. A wait that is cancelled leaves no trace: when no entry was
    stored under [id] before, registering the kill switch and then taking
    the cancellation case of the [select] gives back the server as it
    was. *)
Theorem cancelled_wait_restores_server server (id : Z) (killSwitch : nat) :
  waitingForResponses server !! id = None ->
  getResponse_killed (getResponse_store server id killSwitch) id = server.
Proof.
  intros H. destruct server. unfold getResponse_killed, getResponse_store, set_waiting.
  cbn in *. f_equal. rewrite delete_insert_eq. apply delete_id. exact H.
Qed.

(** X14. Two callers that wait under the same [id]: the second [Store]
    replaces the kill switch of the first, so [removeWaitingRequest] can
    only reach the second caller, and once the second caller is cancelled
    no entry is left for the first, which is still waiting. *)
Theorem second_wait_hides_first server (id : Z) (first second : nat) :
  removeWaitingRequest_load
    (getResponse_store (getResponse_store server id first) id second) id
  = Some second /\
  removeWaitingRequest_load
    (getResponse_killed
       (getResponse_store (getResponse_store server id first) id second) id) id
  = None.
Proof.
  unfold removeWaitingRequest_load, getResponse_killed, getResponse_store, set_waiting.
  cbn [waitingForResponses]. split.
  - apply lookup_insert_eq.
  - apply lookup_delete_eq.
Qed.
End Queue.

Lemma cancelled_wait_restores_server_witness :
  getResponse_killed (getResponse_store (newCTAPHIDServer tt tt) 7 0) 7
  = newCTAPHIDServer tt tt.
Proof.
  exact (cancelled_wait_restores_server (newCTAPHIDServer tt tt) 7 0%nat eq_refl).
Defined.

(** X15. A channel that is assembling does not look at the byte after
    the channel id: whatever stands there, a sequence number in or out of
    order or the command of a new initial packet, [handleMessage] does the
    same with the report. *)
Theorem handleMessage_ignores_sequence {CTAPServer U2FServer : Type}
    (ctapServer_handleMessage : CTAPServer -> list byte -> CTAPServer * list byte)
    (handleU2FMessage : U2FServer -> list byte -> U2FServer * list byte)
    (growslice : nat -> nat -> nat)
    (server : CTAPHIDServer CTAPServer U2FServer)
    (c0 c1 c2 c3 sequence sequence' : byte) (body : list byte)
    (header : CTAPHIDMessageHeader) (partial : slice) :
  let id := Z_of_byte c0 + 2 ^ 8 * Z_of_byte c1 + 2 ^ 16 * Z_of_byte c2
            + 2 ^ 24 * Z_of_byte c3 in
  channels server !! id = Some (Assembling id header partial) ->
  handleMessage ctapServer_handleMessage handleU2FMessage growslice server
    (full (c0 :: c1 :: c2 :: c3 :: sequence :: body)) =
  handleMessage ctapServer_handleMessage handleU2FMessage growslice server
    (full (c0 :: c1 :: c2 :: c3 :: sequence' :: body)).
Proof.
  intros id Hc. unfold handleMessage.
  cbn [full elems readLE_ChannelID mbind outcome_bind]. fold id. rewrite Hc.
  unfold CTAPHIDChannel_handleMessage, full.
  rewrite !handleMessage_with_continuation. reflexivity.
Qed.

Lemma handleMessage_ignores_sequence_witness :
  let server :=
    store_channel (allocated (newCTAPHIDServer tt tt)) 1
      (Assembling 1
         {| ChannelID := 1; Command := CTAPHID_COMMAND_PING; PayloadLength := 58 |}
         (full (replicate 57 x41))) in
  handleMessage idle_processor idle_processor growslice_gc server
    (full ([x01; x00; x00; x00; x00] ++ replicate 59 x41)) =
  handleMessage idle_processor idle_processor growslice_gc server
    (full ([x01; x00; x00; x00; CTAPHID_COMMAND_INIT] ++ replicate 59 x41)).
Proof.
  exact (handleMessage_ignores_sequence idle_processor idle_processor growslice_gc
           (store_channel (allocated (newCTAPHIDServer tt tt)) 1
              (Assembling 1
                 {| ChannelID := 1; Command := CTAPHID_COMMAND_PING;
                    PayloadLength := 58 |}
                 (full (replicate 57 x41))))
           x01 x00 x00 x00 x00 CTAPHID_COMMAND_INIT (replicate 59 x41)
           {| ChannelID := 1; Command := CTAPHID_COMMAND_PING; PayloadLength := 58 |}
           (full (replicate 57 x41)) eq_refl).
Defined.

(** ** The HID bridge *)

Lemma HIDDevice_SendResponse_loop_step fuel response (i : nat) :
  (i < length response)%nat ->
  HIDDevice_SendResponse_loop (S fuel) response i =
  take 64 (drop i response) :: HIDDevice_SendResponse_loop fuel response (i + 64).
Proof.
  intros Hi. cbn [HIDDevice_SendResponse_loop].
  destruct (Nat.ltb_spec i (length response)) as [_|Hn]; [|lia].
  f_equal.
  destruct (Nat.ltb_spec (length response) (i + 64)) as [Hlt|Hge].
  - rewrite !take_ge by (rewrite length_drop; lia). reflexivity.
  - f_equal. lia.
Qed.

Lemma HIDDevice_SendResponse_loop_done fuel response (i : nat) :
  (length response <= i)%nat ->
  HIDDevice_SendResponse_loop fuel response i = [].
Proof.
  intros Hi. destruct fuel; [reflexivity|].
  cbn [HIDDevice_SendResponse_loop].
  destruct (Nat.ltb_spec i (length response)); [lia | reflexivity].
Qed.

Lemma HIDDevice_SendResponse_loop_concat fuel response (i : nat) :
  (length response - i <= fuel)%nat ->
  concat (HIDDevice_SendResponse_loop fuel response i) = drop i response.
Proof.
  revert i. induction fuel as [|fuel IH]; intros i Hf.
  - rewrite drop_ge by lia. reflexivity.
  - destruct (Nat.lt_ge_cases i (length response)) as [Hi|Hi].
    + rewrite HIDDevice_SendResponse_loop_step by exact Hi.
      cbn [concat]. rewrite IH by lia.
      replace (drop (i + 64) response) with (drop 64 (drop i response))
        by apply drop_drop.
      apply take_drop.
    + rewrite HIDDevice_SendResponse_loop_done by exact Hi.
      rewrite drop_ge by lia. reflexivity.
Qed.

Lemma HIDDevice_SendResponse_loop_lookup fuel response (i j : nat) chunk :
  HIDDevice_SendResponse_loop fuel response i !! j = Some chunk ->
  (i + 64 * j < length response)%nat /\
  chunk = take 64 (drop (i + 64 * j) response).
Proof.
  revert i j. induction fuel as [|fuel IH]; intros i j Hj; [discriminate|].
  destruct (Nat.lt_ge_cases i (length response)) as [Hi|Hi].
  - rewrite HIDDevice_SendResponse_loop_step in Hj by exact Hi.
    destruct j as [|j].
    + apply lookup_head in Hj as ->. rewrite Nat.mul_0_r, Nat.add_0_r. auto.
    + apply lookup_tail, IH in Hj as [Hlt ->].
      replace (i + 64 + 64 * j)%nat with (i + 64 * S j)%nat in * by lia. auto.
  - rewrite HIDDevice_SendResponse_loop_done in Hj by exact Hi. discriminate.
Qed.

(** X16. [HIDDevice.SendResponse] loses and reorders nothing: the chunks
    it sends, put end to end, are the response, with zeros added up to 64
    bytes when the response is shorter than that and nothing added
    otherwise. *)
Theorem HIDDevice_SendResponse_concat (response : list byte) :
  concat (HIDDevice_SendResponse response)
  = response ++ replicate (64 - length response) x00.
Proof.
  unfold HIDDevice_SendResponse.
  destruct (Nat.ltb_spec (length response) 64) as [Hlt|Hge].
  - rewrite HIDDevice_SendResponse_loop_concat by lia. apply drop_0.
  - rewrite HIDDevice_SendResponse_loop_concat by lia.
    replace (64 - length response)%nat with 0%nat by lia.
    rewrite drop_0, app_nil_r. reflexivity.
Qed.

(** X17. The chunks of [HIDDevice.SendResponse]: chunk [j] is the next 64
    bytes of the padded response from offset [64 * j], or what is left of
    it. So every chunk is between 1 and 64 bytes long, and a chunk shorter
    than 64 bytes is the last one, of a response longer than 64 bytes whose
    length is not a multiple of 64: such a response is not padded. *)
Theorem HIDDevice_SendResponse_chunk (response : list byte) (j : nat) chunk :
  HIDDevice_SendResponse response !! j = Some chunk ->
  let padded := response ++ replicate (64 - length response) x00 in
  chunk = take 64 (drop (64 * j) padded) /\
  (1 <= length chunk <= 64)%nat /\
  length chunk = (64 `min` (length padded - 64 * j))%nat /\
  ((length chunk < 64)%nat ->
   (64 < length response)%nat /\
   (length response = 64 * j + length chunk)%nat).
Proof.
  intros Hj padded.
  assert (Hp : HIDDevice_SendResponse response
               = HIDDevice_SendResponse_loop (length padded) padded 0).
  { unfold HIDDevice_SendResponse, padded.
    destruct (Nat.ltb_spec (length response) 64) as [Hlt|Hge]; [reflexivity|].
    replace (64 - length response)%nat with 0%nat by lia.
    rewrite app_nil_r. reflexivity. }
  rewrite Hp in Hj.
  apply HIDDevice_SendResponse_loop_lookup in Hj as [Hlt ->].
  cbn [Nat.add] in *.
  assert (Hlen : length padded = (length response + (64 - length response))%nat).
  { unfold padded. rewrite length_app, length_replicate. reflexivity. }
  rewrite length_take, length_drop.
  split; [reflexivity|]. split; [lia|]. split; [reflexivity|]. lia.
Qed.

Lemma HIDDevice_SendResponse_chunk_witness :
  [x01] = take 64 (drop (64 * 1) (replicate 65 x01 ++ replicate (64 - 65) x00)) /\
  (1 <= length [x01] <= 64)%nat.
Proof.
  destruct (HIDDevice_SendResponse_chunk (replicate 65 x01) 1 [x01] eq_refl)
    as (H1 & H2 & _).
  split; [exact H1 | exact H2].
Defined.

Lemma createResponsePackets_loop_lengths fuel channelId command sequence payload :
  Forall (fun packet => length packet = 64%nat)
    (createResponsePackets_loop fuel channelId command sequence payload).
Proof.
  revert sequence payload.
  induction fuel as [|fuel IH]; intros sequence payload; [constructor|].
  destruct payload as [|b payload].
  { rewrite createResponsePackets_loop_nil. constructor. }
  rewrite createResponsePackets_loop_step. constructor; [|apply IH].
  apply length_pad. rewrite length_app, length_take.
  pose proof (length_packet_header channelId command sequence (b :: payload)). lia.
Qed.

(** X18. The engine and the bridge fit: every packet that
    [createResponsePackets] emits goes through [HIDDevice.SendResponse] as
    exactly one chunk, unchanged. *)
Theorem HIDDevice_SendResponse_packet channelId command payload packet :
  packet ∈ createResponsePackets channelId command payload ->
  HIDDevice_SendResponse packet = [packet].
Proof.
  intros Hin.
  pose proof (createResponsePackets_loop_lengths (length payload) channelId
                command (-1) payload) as Hall.
  rewrite Forall_forall in Hall. specialize (Hall packet Hin).
  unfold HIDDevice_SendResponse. rewrite Hall.
  change (64 <? 64)%nat with false. cbv iota. rewrite Hall.
  rewrite HIDDevice_SendResponse_loop_step by lia.
  rewrite HIDDevice_SendResponse_loop_done by lia.
  rewrite drop_0, take_ge by lia. reflexivity.
Qed.

Lemma HIDDevice_SendResponse_packet_witness :
  HIDDevice_SendResponse hello_response = [hello_response].
Proof.
  apply (HIDDevice_SendResponse_packet 2 CTAPHID_COMMAND_PING
           [x68; x65; x6c; x6c; x6f] hello_response).
  apply list_elem_of_here.
Defined.
